(** * LS-8 emulator (cpu.py): shallow embedding and verified properties

    The Python class [CPU] is embedded as a record of its attributes and a
    state-and-exception monad over it.  Python integers are unbounded, so
    every cell, register and counter is a [Z]; Python lists are [list Z]
    indexed the way Python indexes them (negative indices count from the
    end, anything outside [-len, len) raises [IndexError]).  An exception
    leaves the attributes as they were when it was raised, so a computation
    returns its outcome together with the state reached. *)

From Stdlib Require Import ZArith String Ascii Bool Lia.
From stdpp Require Import base list.

Local Open Scope string_scope.
Local Open Scope Z_scope.

(** ** Python lists *)

Module PyList.

(** Position denoted by the Python index [i] in a list of [len] items. *)
Definition index (len : nat) (i : Z) : option nat :=
  if (0 <=? i) && (i <? Z.of_nat len) then Some (Z.to_nat i)
  else if (- Z.of_nat len <=? i) && (i <? 0) then Some (Z.to_nat (i + Z.of_nat len))
  else None.

(** [l[i]] *)
Definition get (l : list Z) (i : Z) : option Z :=
  match index (length l) i with
  | Some n => l !! n
  | None => None
  end.

(** [l[i] = v] *)
Definition set (l : list Z) (i : Z) (v : Z) : option (list Z) :=
  match index (length l) i with
  | Some n => Some (<[n := v]> l)
  | None => None
  end.

End PyList.

(** ** Processor state *)

(** What [print] has sent to standard output. *)
Inductive output : Type :=
| PrintInt (n : Z)
| PrintStr (s : string).

Record CPU : Type := mkCPU {
  ram : list Z;
  pc : Z;
  ir : Z;
  reg : list Z;
  working : bool;
  fl : Z;
  stdout : list output
}.

(** [self.sp] is assigned once in [__init__] and never again. *)
Definition sp : Z := 7.

Definition set_ram (v : list Z) (s : CPU) : CPU :=
  mkCPU v (pc s) (ir s) (reg s) (working s) (fl s) (stdout s).
Definition set_pc (v : Z) (s : CPU) : CPU :=
  mkCPU (ram s) v (ir s) (reg s) (working s) (fl s) (stdout s).
Definition set_ir (v : Z) (s : CPU) : CPU :=
  mkCPU (ram s) (pc s) v (reg s) (working s) (fl s) (stdout s).
Definition set_reg (v : list Z) (s : CPU) : CPU :=
  mkCPU (ram s) (pc s) (ir s) v (working s) (fl s) (stdout s).
Definition set_working (v : bool) (s : CPU) : CPU :=
  mkCPU (ram s) (pc s) (ir s) (reg s) v (fl s) (stdout s).
Definition set_fl (v : Z) (s : CPU) : CPU :=
  mkCPU (ram s) (pc s) (ir s) (reg s) (working s) v (stdout s).
Definition set_stdout (v : list output) (s : CPU) : CPU :=
  mkCPU (ram s) (pc s) (ir s) (reg s) (working s) (fl s) v.

(** [CPU.__init__] *)
Definition init : CPU :=
  mkCPU (replicate 256 0) 0 0 (<[7%nat := 0xF4]> (replicate 8 0)) false 0 [].

(** ** The monad of methods *)

Inductive exn : Type :=
| IndexError
| Exception (msg : string).

Inductive outcome (A : Type) : Type :=
| Ok (a : A)
| Raise (e : exn).
Arguments Ok {A} a.
Arguments Raise {A} e.

Definition M (A : Type) : Type := CPU -> outcome A * CPU.

Definition ret {A} (a : A) : M A := fun s => (Ok a, s).

Definition bind {A B} (m : M A) (k : A -> M B) : M B :=
  fun s =>
    match m s with
    | (Ok a, s') => k a s'
    | (Raise e, s') => (Raise e, s')
    end.

Definition raise {A} (e : exn) : M A := fun s => (Raise e, s).
Definition gets {A} (f : CPU -> A) : M A := fun s => (Ok (f s), s).
Definition modify (f : CPU -> CPU) : M unit := fun s => (Ok tt, f s).

Definition lift_index {A} (o : option A) : M A :=
  match o with
  | Some a => ret a
  | None => raise IndexError
  end.

Declare Scope cpu_scope.
Delimit Scope cpu_scope with cpu.
Notation "x <- m ;; k" := (bind m (fun x => k))
  (at level 100, m at next level, right associativity) : cpu_scope.
Notation "m ;; k" := (bind m (fun _ => k))
  (at level 100, right associativity) : cpu_scope.
Local Open Scope cpu_scope.

(** [print(x)], for a string or for an integer whose decimal form Python
    produces (up to 4300 digits with the default conversion limit); beyond
    that limit [print] raises instead, which this definition does not
    cover. *)
Definition print (x : output) : M unit :=
  modify (fun s => set_stdout (stdout s ++ [x]) s).

(** ** Accessors *)

(** [self.ram[address]] as an expression *)
Definition ram_read (address : Z) : M Z :=
  r <- gets ram ;; lift_index (PyList.get r address).

(** [self.ram[address] = data] *)
Definition ram_write (address data : Z) : M unit :=
  r <- gets ram ;;
  r' <- lift_index (PyList.set r address data) ;;
  modify (set_ram r').

(** [self.reg[address]] as an expression *)
Definition reg_read (address : Z) : M Z :=
  r <- gets reg ;; lift_index (PyList.get r address).

(** [self.reg[address] = data] *)
Definition reg_write (address data : Z) : M unit :=
  r <- gets reg ;;
  r' <- lift_index (PyList.set r address data) ;;
  modify (set_reg r').

(** ** ALU *)

Definition alu (op : string) (reg_a reg_b : Z) : M unit :=
  if String.eqb op "ADD" then
    x <- reg_read reg_a ;;
    y <- reg_read reg_b ;;
    reg_write reg_a (x + y)
  else if String.eqb op "MUL" then
    x <- reg_read reg_a ;;
    y <- reg_read reg_b ;;
    reg_write reg_a (x * y)
  else if String.eqb op "CMP" then
    x <- reg_read reg_a ;;
    y <- reg_read reg_b ;;
    if x >? y then modify (set_fl 2)
    else
      x' <- reg_read reg_a ;;
      y' <- reg_read reg_b ;;
      if x' <? y' then modify (set_fl 4)
      else modify (set_fl 1)
  else raise (Exception "Unsupported ALU operation").

(** ** Instruction handlers *)

Definition CMP : M unit :=
  p <- gets pc ;;
  reg_a <- ram_read (p + 1) ;;
  p <- gets pc ;;
  reg_b <- ram_read (p + 2) ;;
  alu "CMP" reg_a reg_b.

Definition JMP : M unit :=
  p <- gets pc ;;
  r <- ram_read (p + 1) ;;
  new_address <- reg_read r ;;
  modify (set_pc new_address).

Definition JEQ : M unit :=
  f <- gets fl ;;
  if Z.shiftr f 1 =? 0 then JMP
  else modify (fun s => set_pc (pc s + 2) s).

Definition JNE : M unit :=
  f <- gets fl ;;
  if negb (Z.shiftr f 1 =? 0) then JMP
  else modify (fun s => set_pc (pc s + 2) s).

Definition CALL : M unit :=
  modify (fun s => set_pc (pc s + 1) s) ;;
  v <- reg_read sp ;;
  reg_write sp (v - 1) ;;
  p <- gets pc ;;
  top <- reg_read sp ;;
  ram_write top (p + 1) ;;
  p <- gets pc ;;
  r <- ram_read p ;;
  target <- reg_read r ;;
  modify (set_pc target).

Definition RET : M unit :=
  top <- reg_read sp ;;
  next_address <- ram_read top ;;
  v <- reg_read sp ;;
  reg_write sp (v + 1) ;;
  modify (set_pc next_address).

Definition PUSH : M unit :=
  v <- reg_read sp ;;
  reg_write sp (v - 1) ;;
  p <- gets pc ;;
  address <- ram_read (p + 1) ;;
  data <- reg_read address ;;
  top <- reg_read sp ;;
  ram_write top data.

Definition POP : M unit :=
  p <- gets pc ;;
  copy_to <- ram_read (p + 1) ;;
  top <- reg_read sp ;;
  value <- ram_read top ;;
  reg_write copy_to value ;;
  v <- reg_read sp ;;
  reg_write sp (v + 1).

Definition LDI : M unit :=
  p <- gets pc ;;
  location <- ram_read (p + 1) ;;
  p <- gets pc ;;
  data <- ram_read (p + 2) ;;
  reg_write location data.

Definition HLT : M unit := modify (set_working false).

Definition PRN : M unit :=
  p <- gets pc ;;
  location <- ram_read (p + 1) ;;
  data <- reg_read location ;;
  print (PrintInt data).

Definition MUL : M unit :=
  p <- gets pc ;;
  location_a <- ram_read (p + 1) ;;
  p <- gets pc ;;
  location_b <- ram_read (p + 2) ;;
  alu "MUL" location_a location_b.

Definition ADD : M unit :=
  p <- gets pc ;;
  location_a <- ram_read (p + 1) ;;
  p <- gets pc ;;
  location_b <- ram_read (p + 2) ;;
  alu "ADD" location_a location_b.

(** [self.instruction_table], keyed by opcode. *)
Definition instruction_table (opcode : Z) : option (M unit) :=
  match opcode with
  | 130 (* 0b10000010 *) => Some LDI
  | 1 (* 0b00000001 *) => Some HLT
  | 71 (* 0b01000111 *) => Some PRN
  | 162 (* 0b10100010 *) => Some MUL
  | 160 (* 0b10100000 *) => Some ADD
  | 69 (* 0b01000101 *) => Some PUSH
  | 70 (* 0b01000110 *) => Some POP
  | 80 (* 0b01010000 *) => Some CALL
  | 17 (* 0b00010001 *) => Some RET
  | 167 (* 0b10100111 *) => Some CMP
  | 85 (* 0b01010101 *) => Some JEQ
  | 86 (* 0b01010110 *) => Some JNE
  | 84 (* 0b01010100 *) => Some JMP
  | _ => None
  end.

(** ** Execution loop *)

(** Binary digits of a positive integer, most significant first. *)
Fixpoint bin_digits (p : positive) : string :=
  match p with
  | xH => "1"
  | xO q => bin_digits q ++ "0"
  | xI q => bin_digits q ++ "1"
  end.

Fixpoint zeros (n : nat) : string :=
  match n with
  | O => ""
  | S k => String "0" (zeros k)
  end.

Definition zfill (width : nat) (digits : string) : string :=
  zeros (width - String.length digits) ++ digits.

(** The format specification [08b]: base 2, zero-padded after the sign to a
    total width of eight characters. *)
Definition format_08b (n : Z) : string :=
  match n with
  | Z0 => zfill 8 "0"
  | Zpos p => zfill 8 (bin_digits p)
  | Zneg p => "-" ++ zfill 7 (bin_digits p)
  end.

(** One pass through the body of the [while] loop of [run]. *)
Definition cycle : M unit :=
  p <- gets pc ;;
  fetched <- ram_read p ;;
  modify (set_ir fetched) ;;
  opcode <- gets ir ;;
  match instruction_table opcode with
  | Some handler =>
      handler ;;
      opcode <- gets ir ;;
      let sets_pc := Z.land (Z.shiftr opcode 4) 1 in
      if sets_pc =? 0 then
        opcode <- gets ir ;;
        let num_operands := Z.shiftr opcode 6 in
        modify (fun s => set_pc (pc s + (num_operands + 1)) s)
      else ret tt
  | None =>
      opcode <- gets ir ;;
      raise (Exception ("Unsupported operation: " ++ format_08b opcode))
  end.

(** [while self.working: ...], bounded by the number of cycles it may take;
    [None] means the bound was reached with the processor still working. *)
Fixpoint while_working (fuel : nat) (s : CPU) : option (outcome unit * CPU) :=
  if working s then
    match fuel with
    | O => None
    | S fuel' =>
        match cycle s with
        | (Ok _, s') => while_working fuel' s'
        | (Raise e, s') => Some (Raise e, s')
        end
    end
  else Some (Ok tt, s).

Definition run (fuel : nat) (s : CPU) : option (outcome unit * CPU) :=
  while_working fuel (set_working true s).

(** ** Loader *)

(** [range(n)] *)
Definition range (n : nat) : list Z := map Z.of_nat (seq 0 n).

(** [for i in items: body(i)] *)
Fixpoint for_each (items : list Z) (body : Z -> M unit) : M unit :=
  match items with
  | [] => ret tt
  | i :: rest => body i ;; for_each rest body
  end.

(** [self.ram[i] = program[i]], the body of the copy loop of [load]. *)
Definition copy_cell (program : list Z) (i : Z) : M unit :=
  x <- lift_index (PyList.get program i) ;; ram_write i x.

(** [load], from the point where [program] has been read and parsed: the
    size check and the copy into memory (the command-line and file handling
    before it only produce [program]). *)
Definition load (program : list Z) : M unit :=
  r <- gets ram ;;
  (if (length r <? length program)%nat
   then print (PrintStr "The program is too large. Please upgrade the RAM.")
   else ret tt) ;;
  for_each (range (length program)) (copy_cell program).

(** ** Frames *)

(** [m] relates the state it starts from to the state it ends in by [R],
    whether it returns or raises. *)
Definition keeps {A} (R : CPU -> CPU -> Prop) (m : M A) : Prop :=
  forall s o s', m s = (o, s') -> R s s'.

(** ** Rendering of a byte, bit by bit *)

Definition bit_char (b : bool) : ascii := if b then "1"%char else "0"%char.

(** The eight bits of [n], bit 7 first. *)
Definition byte_bits (n : Z) : string :=
  string_of_list_ascii (map (fun k => bit_char (Z.testbit n k)) [7; 6; 5; 4; 3; 2; 1; 0]).

(** ** Sample programs and states *)

(** A freshly built processor with [program] loaded. *)
Definition boot (program : list Z) : CPU := snd (load program init).

(** The same with registers 0 and 1 preset. *)
Definition boot_with (program : list Z) (r0 r1 : Z) : CPU :=
  set_reg (<[1%nat := r1]> (<[0%nat := r0]> (reg init))) (boot program).

(** The same with the stack pointer moved to [v]. *)
Definition with_sp (v : Z) (s : CPU) : CPU := set_reg (<[7%nat := v]> (reg s)) s.

(** The shipped sample: LDI R0,8; LDI R1,9; MUL R0,R1; PRN R0; HLT *)
Definition mult_program : list Z := [130; 0; 8; 130; 1; 9; 162; 0; 1; 71; 0; 1].

(** LDI R0,200; LDI R1,100; ADD R0,R1; PRN R0; HLT *)
Definition overflow_program : list Z := [130; 0; 200; 130; 1; 100; 160; 0; 1; 71; 0; 1].

(** A program one value longer than memory. *)
Definition oversized_program : list Z := replicate 257 0.

(** ** Outcomes of methods *)

(** [m] raises nothing but [IndexError]. *)
Definition raises_only_IndexError {A} (m : M A) : Prop :=
  forall s e s', m s = (Raise e, s') -> e = IndexError.

(** Two consecutive passes through the loop body. *)
Definition two_cycles : M unit := cycle ;; cycle.

(** The state a finished run ends in ([init] when the bound was reached). *)
Definition final (r : option (outcome unit * CPU)) : CPU :=
  match r with
  | Some (_, s) => s
  | None => init
  end.


(** LDI R0,7; PRN R0; HLT *)
Definition print_program : list Z := [130; 0; 7; 71; 0; 1].

(** LDI R2,8; CMP R0,R1; JEQ R2; HLT *)
Definition branch_program : list Z := [130; 2; 8; 167; 0; 1; 85; 2; 1].

(** ** Reasoning about methods *)

Ltac unfold_m :=
  unfold ram_read, ram_write, reg_read, reg_write, print in *;
  unfold lift_index, bind, gets, modify, ret, raise in *.

(** Reduce field reads of updated records, and nothing else. *)
Ltac fields :=
  cbn [ram pc ir reg working fl stdout
       set_ram set_pc set_ir set_reg set_working set_fl set_stdout] in *.

(** Case analysis on every list access met while running a method. *)
Ltac split_accesses H :=
  repeat match type of H with
    | context [PyList.get ?l ?i] =>
        let E := fresh "Hget" in
        destruct (PyList.get l i) eqn:E; simpl in H; try discriminate H
    | context [PyList.set ?l ?i ?v] =>
        let E := fresh "Hset" in
        destruct (PyList.set l i v) eqn:E; simpl in H; try discriminate H
    end.

(** The same, keeping the branches in which an access raises. *)
Ltac split_all_accesses H :=
  repeat match type of H with
    | context [PyList.get ?l ?i] =>
        let E := fresh "Hget" in destruct (PyList.get l i) eqn:E; fields
    | context [PyList.set ?l ?i ?v] =>
        let E := fresh "Hset" in destruct (PyList.set l i v) eqn:E; fields
    end.

(** ** Sanity checks of the embedding *)

Example mult_program_prints_72 :
  match load mult_program init with
  | (Ok _, s) =>
      match run 5 s with
      | Some (Ok _, s') => stdout s' = [PrintInt 72] /\ working s' = false
      | _ => False
      end
  | _ => False
  end.
Proof. vm_compute. split; reflexivity. Qed.

Example format_08b_keys :
  map format_08b [130; 1; 71; 162; 160; 69; 70; 80; 17; 167; 85; 86; 84]
  = ["10000010"; "00000001"; "01000111"; "10100010"; "10100000"; "01000101";
     "01000110"; "01010000"; "00010001"; "10100111"; "01010101"; "01010110";
     "01010100"].
Proof. reflexivity. Qed.

(** ** Facts about Python list indexing *)

Section PyListFacts.

Implicit Types (l : list Z) (i j v w : Z) (n : nat).

Lemma index_lt len i n : PyList.index len i = Some n -> (n < len)%nat.
Proof.
  unfold PyList.index.
  destruct (Z.leb_spec 0 i), (Z.ltb_spec i (Z.of_nat len)),
    (Z.leb_spec (- Z.of_nat len) i), (Z.ltb_spec i 0); simpl;
    intros [= <-]; lia.
Qed.

Lemma index_nonneg len i :
  0 <= i < Z.of_nat len -> PyList.index len i = Some (Z.to_nat i).
Proof.
  intros Hi. unfold PyList.index.
  destruct (Z.leb_spec 0 i), (Z.ltb_spec i (Z.of_nat len)); simpl; (reflexivity || lia).
Qed.

Lemma index_negative len i :
  - Z.of_nat len <= i < 0 -> PyList.index len i = Some (Z.to_nat (i + Z.of_nat len)).
Proof.
  intros Hi. unfold PyList.index.
  destruct (Z.leb_spec 0 i); [lia|]. simpl.
  destruct (Z.leb_spec (- Z.of_nat len) i), (Z.ltb_spec i 0); simpl; (reflexivity || lia).
Qed.

Lemma index_out_of_range len i :
  i < - Z.of_nat len \/ Z.of_nat len <= i -> PyList.index len i = None.
Proof.
  intros Hi. unfold PyList.index.
  destruct (Z.leb_spec 0 i), (Z.ltb_spec i (Z.of_nat len)),
    (Z.leb_spec (- Z.of_nat len) i), (Z.ltb_spec i 0); simpl; (reflexivity || lia).
Qed.

Lemma get_index l i v :
  PyList.get l i = Some v <-> exists n, PyList.index (length l) i = Some n /\ l !! n = Some v.
Proof.
  unfold PyList.get. destruct (PyList.index (length l) i) as [n|].
  - split; [eauto|]. intros (m & [= <-] & H). exact H.
  - split; [discriminate|]. intros (m & [=] & _).
Qed.

Lemma set_index l i v l' :
  PyList.set l i v = Some l' <->
  exists n, PyList.index (length l) i = Some n /\ l' = <[n := v]> l.
Proof.
  unfold PyList.set. destruct (PyList.index (length l) i) as [n|].
  - split; [intros [= <-]; eauto|]. intros (m & [= <-] & ->). reflexivity.
  - split; [discriminate|]. intros (m & [=] & _).
Qed.

Lemma set_length l i v l' : PyList.set l i v = Some l' -> length l' = length l.
Proof. intros (n & _ & ->)%set_index. apply length_insert. Qed.

Lemma get_set_eq l i v l' : PyList.set l i v = Some l' -> PyList.get l' i = Some v.
Proof.
  intros (n & Hn & ->)%set_index. apply get_index. exists n.
  rewrite length_insert. split; [exact Hn|].
  apply list_lookup_insert_eq. eapply index_lt, Hn.
Qed.

Lemma get_set_ne l i j v l' :
  PyList.set l i v = Some l' ->
  PyList.index (length l) j <> PyList.index (length l) i ->
  PyList.get l' j = PyList.get l j.
Proof.
  intros (n & Hn & ->)%set_index Hne. unfold PyList.get.
  rewrite length_insert. destruct (PyList.index (length l) j) as [m|]; [|reflexivity].
  apply list_lookup_insert_ne. congruence.
Qed.

Lemma get_set_same_index l i j v l' :
  PyList.set l i v = Some l' ->
  PyList.index (length l) j = PyList.index (length l) i ->
  PyList.get l' j = Some v.
Proof.
  intros Hset Hij. pose proof (get_set_eq _ _ _ _ Hset) as Hget.
  pose proof (set_length _ _ _ _ Hset) as Hlen.
  unfold PyList.get in *. rewrite Hlen in *. rewrite Hij. exact Hget.
Qed.

Lemma set_get_id l i v : PyList.get l i = Some v -> PyList.set l i v = Some l.
Proof.
  intros (n & Hn & Hv)%get_index. apply set_index. exists n.
  split; [exact Hn|]. symmetry. apply list_insert_id, Hv.
Qed.

Lemma set_set l i v w l' :
  PyList.set l i v = Some l' -> PyList.set l' i w = PyList.set l i w.
Proof.
  intros (n & Hn & ->)%set_index. unfold PyList.set.
  rewrite length_insert, Hn. f_equal. apply list_insert_insert_eq.
Qed.

Lemma get_is_Some_set l i v w : PyList.get l i = Some v -> exists l', PyList.set l i w = Some l'.
Proof.
  intros (n & Hn & _)%get_index. unfold PyList.set. rewrite Hn. eauto.
Qed.

Lemma set_is_Some_get l i v l' : PyList.set l i v = Some l' -> exists w, PyList.get l i = Some w.
Proof.
  intros (n & Hn & _)%set_index. unfold PyList.get. rewrite Hn.
  apply lookup_lt_is_Some_2. eapply index_lt, Hn.
Qed.

End PyListFacts.

Section Frames.

Variable R : CPU -> CPU -> Prop.
Hypothesis R_refl : forall s, R s s.
Hypothesis R_trans : forall s1 s2 s3, R s1 s2 -> R s2 s3 -> R s1 s3.

Lemma keeps_ret {A} (a : A) : keeps R (ret a).
Proof. intros s o s'. unfold ret. intros [= _ <-]. apply R_refl. Qed.

Lemma keeps_raise {A} e : keeps R (@raise A e).
Proof. intros s o s'. unfold raise. intros [= _ <-]. apply R_refl. Qed.

Lemma keeps_gets {A} (f : CPU -> A) : keeps R (gets f).
Proof. intros s o s'. unfold gets. intros [= _ <-]. apply R_refl. Qed.

Lemma keeps_lift_index {A} (x : option A) : keeps R (lift_index x).
Proof. destruct x; [apply keeps_ret | apply keeps_raise]. Qed.

Lemma keeps_modify f : (forall s, R s (f s)) -> keeps R (modify f).
Proof. intros Hf s o s'. unfold modify. intros [= _ <-]. apply Hf. Qed.

Lemma keeps_bind {A B} (m : M A) (k : A -> M B) :
  keeps R m -> (forall a, keeps R (k a)) -> keeps R (bind m k).
Proof.
  intros Hm Hk s o s'. unfold bind.
  destruct (m s) as [[a|e] s1] eqn:Em.
  - intros Ek. eapply R_trans; [eapply Hm, Em | eapply Hk, Ek].
  - intros [= _ <-]. eapply Hm, Em.
Qed.

Lemma keeps_if {A} (b : bool) (m1 m2 : M A) :
  keeps R m1 -> keeps R m2 -> keeps R (if b then m1 else m2).
Proof. destruct b; auto. Qed.

Hypothesis R_ram : forall s v, length v = length (ram s) -> R s (set_ram v s).
Hypothesis R_reg : forall s v, length v = length (reg s) -> R s (set_reg v s).
Hypothesis R_pc : forall s v, R s (set_pc v s).
Hypothesis R_working : forall s v, R s (set_working v s).
Hypothesis R_stdout : forall s v, R s (set_stdout v s).

Lemma keeps_ram_read a : keeps R (ram_read a).
Proof. apply keeps_bind; [apply keeps_gets | intros; apply keeps_lift_index]. Qed.

Lemma keeps_reg_read a : keeps R (reg_read a).
Proof. apply keeps_bind; [apply keeps_gets | intros; apply keeps_lift_index]. Qed.

Lemma keeps_ram_write a v : keeps R (ram_write a v).
Proof.
  intros s o s'. unfold_m.
  destruct (PyList.set (ram s) a v) eqn:E; simpl; intros [= _ <-]; [|apply R_refl].
  apply R_ram. eapply set_length, E.
Qed.

Lemma keeps_reg_write a v : keeps R (reg_write a v).
Proof.
  intros s o s'. unfold_m.
  destruct (PyList.set (reg s) a v) eqn:E; simpl; intros [= _ <-]; [|apply R_refl].
  apply R_reg. eapply set_length, E.
Qed.

Ltac frame :=
  repeat first
    [ apply keeps_ram_read | apply keeps_reg_read
    | apply keeps_ram_write | apply keeps_reg_write
    | apply keeps_gets | apply keeps_ret | apply keeps_raise
    | apply keeps_lift_index
    | apply keeps_bind; [|intros]
    | apply keeps_if
    | apply keeps_modify; intros; first [apply R_pc | apply R_working | apply R_stdout] ].

Lemma keeps_JMP : keeps R JMP.
Proof. unfold JMP. frame. Qed.

Lemma keeps_JEQ : keeps R JEQ.
Proof. unfold JEQ. frame. Qed.

Lemma keeps_JNE : keeps R JNE.
Proof. unfold JNE. frame. Qed.

Lemma keeps_CALL : keeps R CALL.
Proof. unfold CALL. frame. Qed.

Lemma keeps_RET : keeps R RET.
Proof. unfold RET. frame. Qed.

Lemma keeps_PUSH : keeps R PUSH.
Proof. unfold PUSH. frame. Qed.

Lemma keeps_POP : keeps R POP.
Proof. unfold POP. frame. Qed.

Lemma keeps_LDI : keeps R LDI.
Proof. unfold LDI. frame. Qed.

Lemma keeps_HLT : keeps R HLT.
Proof. unfold HLT. frame. Qed.

Lemma keeps_PRN : keeps R PRN.
Proof. unfold PRN, print. frame. Qed.

Lemma keeps_MUL : keeps R MUL.
Proof. unfold MUL, alu. simpl. frame. Qed.

Lemma keeps_ADD : keeps R ADD.
Proof. unfold ADD, alu. simpl. frame. Qed.

(** Every handler but CMP, which is the one that writes the flags. *)
Lemma keeps_handler opcode handler :
  opcode <> 167 ->
  instruction_table opcode = Some handler ->
  keeps R handler.
Proof.
  intros Hne. unfold instruction_table.
  repeat match goal with
    | |- match ?x with _ => _ end = _ -> _ => destruct x; try discriminate
    end;
    try (intros [= <-];
         auto using keeps_JMP, keeps_JEQ, keeps_JNE, keeps_CALL, keeps_RET,
           keeps_PUSH, keeps_POP, keeps_LDI, keeps_HLT, keeps_PRN, keeps_MUL,
           keeps_ADD).
  contradiction.
Qed.

Hypothesis R_fl : forall s v, R s (set_fl v s).

Lemma keeps_CMP : keeps R CMP.
Proof.
  unfold CMP, alu. simpl. frame; apply keeps_modify; intros; apply R_fl.
Qed.

Lemma keeps_any_handler opcode handler :
  instruction_table opcode = Some handler ->
  keeps R handler.
Proof.
  destruct (Z.eq_dec opcode 167) as [->|Hne].
  - intros [= <-]. apply keeps_CMP.
  - apply keeps_handler, Hne.
Qed.

End Frames.

(** ** What handlers leave alone *)

Lemma handler_keeps_ir opcode handler :
  instruction_table opcode = Some handler ->
  keeps (fun s s' => ir s' = ir s) handler.
Proof.
  apply keeps_any_handler; simpl; intros; congruence.
Qed.

Lemma handler_keeps_fl opcode handler :
  opcode <> 167 ->
  instruction_table opcode = Some handler ->
  keeps (fun s s' => fl s' = fl s) handler.
Proof.
  apply keeps_handler; simpl; intros; congruence.
Qed.

Lemma handler_keeps_sizes opcode handler :
  instruction_table opcode = Some handler ->
  keeps (fun s s' => length (ram s') = length (ram s) /\ length (reg s') = length (reg s))
    handler.
Proof.
  apply keeps_any_handler; simpl; intros; intuition congruence.
Qed.

(** ** The program-counter policy of the loop *)

(** C1: in a cycle that dispatches a recognised opcode whose handler
    returns, the loop adds [(ir >> 6) + 1] to the pc the handler left when
    bit 4 of the opcode is 0, and leaves the pc exactly as the handler set it
    when bit 4 is 1. *)
Theorem cycle_pc_advance s opcode handler s1 :
  PyList.get (ram s) (pc s) = Some opcode ->
  instruction_table opcode = Some handler ->
  handler (set_ir opcode s) = (Ok tt, s1) ->
  (Z.land (Z.shiftr opcode 4) 1 = 0 ->
     cycle s = (Ok tt, set_pc (pc s1 + (Z.shiftr opcode 6 + 1)) s1)) /\
  (Z.land (Z.shiftr opcode 4) 1 = 1 -> cycle s = (Ok tt, s1)) /\
  (Z.land (Z.shiftr opcode 4) 1 = 0 \/ Z.land (Z.shiftr opcode 4) 1 = 1).
Proof.
  intros Hfetch Htable Hrun.
  pose proof (handler_keeps_ir _ _ Htable _ _ _ Hrun) as Hir. simpl in Hir.
  assert (Hcycle : cycle s =
    (Ok tt, if Z.land (Z.shiftr opcode 4) 1 =? 0
            then set_pc (pc s1 + (Z.shiftr opcode 6 + 1)) s1 else s1)).
  { unfold cycle. unfold_m. rewrite Hfetch. cbn [ir set_ir].
    rewrite Htable, Hrun, Hir.
    destruct (Z.land (Z.shiftr opcode 4) 1 =? 0); rewrite ?Hir; reflexivity. }
  rewrite Hcycle. split; [|split]; try (intros ->; reflexivity).
  pose proof (Z.land_ones (Z.shiftr opcode 4) 1 ltac:(lia)) as Hland.
  change (Z.ones 1) with 1 in Hland. change (2 ^ 1) with 2 in Hland.
  pose proof (Z.mod_pos_bound (Z.shiftr opcode 4) 2 eq_refl). lia.
Qed.

(** ** CMP *)

Lemma CMP_run s a b x y :
  PyList.get (ram s) (pc s + 1) = Some a ->
  PyList.get (ram s) (pc s + 2) = Some b ->
  PyList.get (reg s) a = Some x ->
  PyList.get (reg s) b = Some y ->
  CMP s = (Ok tt, set_fl (if x >? y then 2 else if x <? y then 4 else 1) s).
Proof.
  intros Ha Hb Hx Hy. unfold CMP, alu. unfold_m. simpl.
  rewrite Ha, Hb, Hx, Hy.
  destruct (x >? y); [reflexivity|]. simpl. rewrite Hx, Hy.
  destruct (x <? y); reflexivity.
Qed.

Lemma CMP_inv s s1 :
  CMP s = (Ok tt, s1) ->
  exists a b x y,
    PyList.get (ram s) (pc s + 1) = Some a /\
    PyList.get (ram s) (pc s + 2) = Some b /\
    PyList.get (reg s) a = Some x /\
    PyList.get (reg s) b = Some y /\
    s1 = set_fl (if x >? y then 2 else if x <? y then 4 else 1) s.
Proof.
  intros H.
  destruct (PyList.get (ram s) (pc s + 1)) as [a|] eqn:Ha;
    [|unfold CMP in H; unfold_m; rewrite Ha in H; discriminate].
  destruct (PyList.get (ram s) (pc s + 2)) as [b|] eqn:Hb;
    [|unfold CMP in H; unfold_m; rewrite Ha, Hb in H; discriminate].
  destruct (PyList.get (reg s) a) as [x|] eqn:Hx;
    [|unfold CMP, alu in H; unfold_m; simpl in H; rewrite Ha, Hb, Hx in H; discriminate].
  destruct (PyList.get (reg s) b) as [y|] eqn:Hy;
    [|unfold CMP, alu in H; unfold_m; simpl in H; rewrite Ha, Hb, Hx, Hy in H; discriminate].
  rewrite (CMP_run s a b x y Ha Hb Hx Hy) in H.
  exists a, b, x, y. repeat split; try assumption. congruence.
Qed.

(** C2: CMP on registers [a] and [b] holding [x] and [y] sets the flags to
    0b010 when [x > y], to 0b100 when [x < y] and to 0b001 when they are
    equal, and changes nothing else. *)
Theorem CMP_sets_flags s a b x y :
  PyList.get (ram s) (pc s + 1) = Some a ->
  PyList.get (ram s) (pc s + 2) = Some b ->
  PyList.get (reg s) a = Some x ->
  PyList.get (reg s) b = Some y ->
  (x > y -> CMP s = (Ok tt, set_fl 2 s)) /\
  (x < y -> CMP s = (Ok tt, set_fl 4 s)) /\
  (x = y -> CMP s = (Ok tt, set_fl 1 s)).
Proof.
  intros Ha Hb Hx Hy. rewrite (CMP_run s a b x y Ha Hb Hx Hy).
  destruct (Z.gtb_spec x y), (Z.ltb_spec x y); repeat split; intros; (reflexivity || lia).
Qed.

(** ** Conditional jumps *)

Lemma JMP_run s r t :
  PyList.get (ram s) (pc s + 1) = Some r ->
  PyList.get (reg s) r = Some t ->
  JMP s = (Ok tt, set_pc t s).
Proof.
  intros Hr Ht. unfold JMP. unfold_m. rewrite Hr. simpl. rewrite Ht. reflexivity.
Qed.

Lemma JEQ_run s :
  JEQ s = if Z.shiftr (fl s) 1 =? 0 then JMP s else (Ok tt, set_pc (pc s + 2) s).
Proof.
  unfold JEQ. unfold_m. destruct (Z.shiftr (fl s) 1 =? 0); reflexivity.
Qed.

Lemma JNE_run s :
  JNE s = if Z.shiftr (fl s) 1 =? 0 then (Ok tt, set_pc (pc s + 2) s) else JMP s.
Proof.
  unfold JNE. unfold_m. destruct (Z.shiftr (fl s) 1 =? 0); reflexivity.
Qed.

(** C3: JEQ takes the jump (pc becomes Register[Memory[pc+1]]) when
    [fl >> 1] is zero and otherwise adds 2 to pc; JNE takes it when
    [fl >> 1] is nonzero and otherwise adds 2 to pc.  With the flags a CMP
    leaves, JEQ jumps exactly on 0b001 and JNE exactly on 0b010 or 0b100. *)
Theorem JEQ_JNE_shifted_flags s :
  (Z.shiftr (fl s) 1 = 0 -> JEQ s = JMP s) /\
  (Z.shiftr (fl s) 1 <> 0 -> JEQ s = (Ok tt, set_pc (pc s + 2) s)) /\
  (Z.shiftr (fl s) 1 <> 0 -> JNE s = JMP s) /\
  (Z.shiftr (fl s) 1 = 0 -> JNE s = (Ok tt, set_pc (pc s + 2) s)) /\
  (forall r t,
     PyList.get (ram s) (pc s + 1) = Some r ->
     PyList.get (reg s) r = Some t ->
     JMP s = (Ok tt, set_pc t s)) /\
  (forall s0 s1,
     CMP s0 = (Ok tt, s1) ->
     fl s = fl s1 ->
     (fl s = 1 /\ JEQ s = JMP s /\ JNE s = (Ok tt, set_pc (pc s + 2) s)) \/
     ((fl s = 2 \/ fl s = 4) /\
        JEQ s = (Ok tt, set_pc (pc s + 2) s) /\ JNE s = JMP s)).
Proof.
  rewrite JEQ_run, JNE_run.
  repeat split.
  - intros ->. reflexivity.
  - intros H. apply Z.eqb_neq in H. rewrite H. reflexivity.
  - intros H. apply Z.eqb_neq in H. rewrite H. reflexivity.
  - intros ->. reflexivity.
  - apply JMP_run.
  - intros s0 s1 (a & b & x & y & _ & _ & _ & _ & ->)%CMP_inv Hfl.
    rewrite Hfl. simpl.
    destruct (x >? y); [right; auto|].
    destruct (x <? y); [right; auto | left; auto].
Qed.

(** C9: with the flags still at their initial value 0, JEQ takes the jump
    and JNE adds 2 to pc; the flags start at 0 and only CMP writes them. *)
Theorem JEQ_jumps_on_initial_flags s :
  fl s = 0 ->
  JEQ s = JMP s /\
  JNE s = (Ok tt, set_pc (pc s + 2) s) /\
  (forall r t,
     PyList.get (ram s) (pc s + 1) = Some r ->
     PyList.get (reg s) r = Some t ->
     JEQ s = (Ok tt, set_pc t s)) /\
  fl init = 0 /\
  (forall opcode handler s0 o s1,
     opcode <> 167 ->
     instruction_table opcode = Some handler ->
     handler s0 = (o, s1) ->
     fl s1 = fl s0).
Proof.
  intros Hfl. rewrite JEQ_run, JNE_run, Hfl. simpl.
  repeat split.
  - apply JMP_run.
  - intros opcode handler s0 o s1 Hne Htable Hrun.
    exact (handler_keeps_fl _ _ Hne Htable _ _ _ Hrun).
Qed.

(** ** Subroutine call and return *)

Lemma CALL_inv s s1 :
  CALL s = (Ok tt, s1) ->
  exists v regs1 ram1 r t,
    PyList.get (reg s) sp = Some v /\
    PyList.set (reg s) sp (v - 1) = Some regs1 /\
    PyList.set (ram s) (v - 1) (pc s + 2) = Some ram1 /\
    PyList.get ram1 (pc s + 1) = Some r /\
    PyList.get regs1 r = Some t /\
    s1 = set_pc t (set_ram ram1 (set_reg regs1 (set_pc (pc s + 1) s))).
Proof.
  intros H. unfold CALL in H. unfold_m. simpl in H.
  split_accesses H.
  rewrite (get_set_eq _ _ _ _ Hset) in Hget0. injection Hget0 as <-.
  replace (pc s + 1 + 1) with (pc s + 2) in Hset0 by lia.
  injection H as <-. eauto 12.
Qed.

Lemma RET_run s top next regs' :
  PyList.get (reg s) sp = Some top ->
  PyList.get (ram s) top = Some next ->
  PyList.set (reg s) sp (top + 1) = Some regs' ->
  RET s = (Ok tt, set_pc next (set_reg regs' s)).
Proof.
  intros Htop Hnext Hregs. unfold RET. unfold_m.
  rewrite Htop. fields. rewrite Hnext, Htop. fields. rewrite Hregs. reflexivity.
Qed.

(** C4: CALL decrements Register[7], stores [pc + 2] in the memory cell it
    then points to and sets pc to Register[operand1]; RET executed with the
    stack pointer at that cell sets pc to the stored address and increments
    Register[7], so the stack pointer is back at its value before the CALL
    and execution continues at [pc + 2]. *)
Theorem CALL_then_RET s s1 :
  CALL s = (Ok tt, s1) ->
  exists v r,
    PyList.get (reg s) sp = Some v /\
    PyList.set (reg s) sp (v - 1) = Some (reg s1) /\
    PyList.set (ram s) (v - 1) (pc s + 2) = Some (ram s1) /\
    PyList.get (reg s1) sp = Some (v - 1) /\
    PyList.get (ram s1) (v - 1) = Some (pc s + 2) /\
    PyList.get (ram s1) (pc s + 1) = Some r /\
    PyList.get (reg s1) r = Some (pc s1) /\
    (PyList.index (length (ram s)) (pc s + 1) <> PyList.index (length (ram s)) (v - 1) ->
       PyList.get (ram s) (pc s + 1) = Some r) /\
    (PyList.index (length (reg s)) r <> PyList.index (length (reg s)) sp ->
       PyList.get (reg s) r = Some (pc s1)) /\
    s1 = set_pc (pc s1) (set_ram (ram s1) (set_reg (reg s1) s)) /\
    (forall s2,
       PyList.get (reg s2) sp = Some (v - 1) ->
       PyList.get (ram s2) (v - 1) = Some (pc s + 2) ->
       exists regs3,
         PyList.set (reg s2) sp v = Some regs3 /\
         PyList.get regs3 sp = Some v /\
         RET s2 = (Ok tt, set_pc (pc s + 2) (set_reg regs3 s2))) /\
    RET s1 = (Ok tt, set_pc (pc s + 2) (set_reg (reg s) s1)).
Proof.
  intros (v & regs1 & ram1 & r & t & Hv & Hregs & Hram & Hr & Ht & ->)%CALL_inv.
  simpl. exists v, r.
  pose proof (get_set_eq _ _ _ _ Hregs) as Hsp1.
  pose proof (get_set_eq _ _ _ _ Hram) as Hslot.
  assert (Hback : PyList.set regs1 sp (v - 1 + 1) = Some (reg s)).
  { rewrite (set_set _ _ _ _ _ Hregs). replace (v - 1 + 1) with v by lia.
    apply set_get_id, Hv. }
  repeat split; try assumption.
  - intros Hne. rewrite <- Hr. symmetry. eapply get_set_ne; eassumption.
  - intros Hne. rewrite <- Ht. symmetry. eapply get_set_ne; eassumption.
  - intros s2 Hsp2 Hslot2.
    destruct (get_is_Some_set _ _ _ v Hsp2) as [regs3 Hregs3].
    exists regs3. split; [exact Hregs3|]. split; [eapply get_set_eq, Hregs3|].
    apply (RET_run s2 (v - 1)); try assumption.
    replace (v - 1 + 1) with v by lia. exact Hregs3.
  - apply (RET_run _ (v - 1)); assumption.
Qed.

(** ** Stack push and pop *)

Lemma get_is_Some_length (l l' : list Z) i :
  length l = length l' -> is_Some (PyList.get l i) -> is_Some (PyList.get l' i).
Proof.
  intros Hlen [v (n & Hn & _)%get_index]. unfold PyList.get.
  rewrite <- Hlen, Hn. apply lookup_lt_is_Some_2. rewrite <- Hlen. eapply index_lt, Hn.
Qed.

Lemma PUSH_inv s s1 :
  PUSH s = (Ok tt, s1) ->
  exists v regs1 r data ram1,
    PyList.get (reg s) sp = Some v /\
    PyList.set (reg s) sp (v - 1) = Some regs1 /\
    PyList.get (ram s) (pc s + 1) = Some r /\
    PyList.get regs1 r = Some data /\
    PyList.set (ram s) (v - 1) data = Some ram1 /\
    s1 = set_ram ram1 (set_reg regs1 s).
Proof.
  intros H. unfold PUSH in H. unfold_m. fields.
  split_accesses H.
  rewrite (get_set_eq _ _ _ _ Hset) in Hget2. injection Hget2 as <-.
  injection H as <-. eauto 12.
Qed.

Lemma PUSH_run s v regs1 r data ram1 :
  PyList.get (reg s) sp = Some v ->
  PyList.set (reg s) sp (v - 1) = Some regs1 ->
  PyList.get (ram s) (pc s + 1) = Some r ->
  PyList.get regs1 r = Some data ->
  PyList.set (ram s) (v - 1) data = Some ram1 ->
  PUSH s = (Ok tt, set_ram ram1 (set_reg regs1 s)).
Proof.
  intros Hv Hregs Hr Hdata Hram. unfold PUSH. unfold_m.
  rewrite Hv. fields. rewrite Hregs. fields. rewrite Hr. fields.
  rewrite Hdata. fields. rewrite (get_set_eq _ _ _ _ Hregs). fields.
  rewrite Hram. reflexivity.
Qed.

Lemma POP_run s r top value regs1 v regs2 :
  PyList.get (ram s) (pc s + 1) = Some r ->
  PyList.get (reg s) sp = Some top ->
  PyList.get (ram s) top = Some value ->
  PyList.set (reg s) r value = Some regs1 ->
  PyList.get regs1 sp = Some v ->
  PyList.set regs1 sp (v + 1) = Some regs2 ->
  POP s = (Ok tt, set_reg regs2 s).
Proof.
  intros Hr Htop Hvalue Hregs1 Hv Hregs2. unfold POP. unfold_m.
  rewrite Hr. fields. rewrite Htop. fields. rewrite Hvalue. fields.
  rewrite Hregs1. fields. rewrite Hv. fields. rewrite Hregs2. reflexivity.
Qed.

(** C5: when PUSH with operand [r] returns and POP with the same operand
    runs next on the registers and memory PUSH left, POP returns too, and
    afterwards Register[r] and Register[7] hold the values they had before
    the PUSH (so does every other register). *)
Theorem PUSH_then_POP s s1 r s2 :
  PUSH s = (Ok tt, s1) ->
  PyList.get (ram s) (pc s + 1) = Some r ->
  reg s2 = reg s1 ->
  ram s2 = ram s1 ->
  PyList.get (ram s2) (pc s2 + 1) = Some r ->
  exists x v s3,
    PyList.get (reg s) r = Some x /\
    PyList.get (reg s) sp = Some v /\
    POP s2 = (Ok tt, s3) /\
    PyList.get (reg s3) r = Some x /\
    PyList.get (reg s3) sp = Some v /\
    reg s3 = reg s /\
    ram s3 = ram s2.
Proof.
  intros (v & regs1 & r' & data & ram1 & Hv & Hregs & Hr' & Hdata & Hram & ->)%PUSH_inv
    Hr Hreg2 Hram2 Hr2.
  fields. rewrite Hr in Hr'. injection Hr' as <-.
  destruct (get_is_Some_length regs1 (reg s) r) as [x Hx];
    [apply (set_length _ _ _ _ Hregs) | eauto |].
  assert (Hback : PyList.set regs1 sp (v - 1 + 1) = Some (reg s)).
  { rewrite (set_set _ _ _ _ _ Hregs). replace (v - 1 + 1) with v by lia.
    apply set_get_id, Hv. }
  exists x, v, (set_reg (reg s) s2). repeat split; try assumption.
  apply (POP_run s2 r (v - 1) data regs1 (v - 1)); try assumption.
  - rewrite Hreg2. eapply get_set_eq, Hregs.
  - rewrite Hram2. eapply get_set_eq, Hram.
  - rewrite Hreg2. apply set_get_id, Hdata.
  - eapply get_set_eq, Hregs.
Qed.

(** ** Arithmetic *)

Lemma ADD_run s a b x y :
  PyList.get (ram s) (pc s + 1) = Some a ->
  PyList.get (ram s) (pc s + 2) = Some b ->
  PyList.get (reg s) a = Some x ->
  PyList.get (reg s) b = Some y ->
  exists regs',
    PyList.set (reg s) a (x + y) = Some regs' /\
    ADD s = (Ok tt, set_reg regs' s).
Proof.
  intros Ha Hb Hx Hy.
  destruct (get_is_Some_set _ _ _ (x + y) Hx) as [regs' Hregs].
  exists regs'. split; [exact Hregs|].
  unfold ADD, alu. unfold_m. cbn [String.eqb Ascii.eqb Bool.eqb].
  rewrite Ha. fields. rewrite Hb. fields. rewrite Hx. fields. rewrite Hy. fields.
  rewrite Hregs. reflexivity.
Qed.

Lemma MUL_run s a b x y :
  PyList.get (ram s) (pc s + 1) = Some a ->
  PyList.get (ram s) (pc s + 2) = Some b ->
  PyList.get (reg s) a = Some x ->
  PyList.get (reg s) b = Some y ->
  exists regs',
    PyList.set (reg s) a (x * y) = Some regs' /\
    MUL s = (Ok tt, set_reg regs' s).
Proof.
  intros Ha Hb Hx Hy.
  destruct (get_is_Some_set _ _ _ (x * y) Hx) as [regs' Hregs].
  exists regs'. split; [exact Hregs|].
  unfold MUL, alu. unfold_m. cbn [String.eqb Ascii.eqb Bool.eqb].
  rewrite Ha. fields. rewrite Hb. fields. rewrite Hx. fields. rewrite Hy. fields.
  rewrite Hregs. reflexivity.
Qed.

(** C6, as the code has it: ADD leaves the exact integer sum
    Register[a] + Register[b] in register [a] and MUL the exact product,
    with no reduction modulo 256; the result lies in 0..255 only when the
    exact sum or product does. *)
Theorem ADD_MUL_exact s a b x y :
  PyList.get (ram s) (pc s + 1) = Some a ->
  PyList.get (ram s) (pc s + 2) = Some b ->
  PyList.get (reg s) a = Some x ->
  PyList.get (reg s) b = Some y ->
  (exists regs',
     ADD s = (Ok tt, set_reg regs' s) /\
     PyList.set (reg s) a (x + y) = Some regs' /\
     PyList.get regs' a = Some (x + y)) /\
  (exists regs',
     MUL s = (Ok tt, set_reg regs' s) /\
     PyList.set (reg s) a (x * y) = Some regs' /\
     PyList.get regs' a = Some (x * y)) /\
  (x + y = (x + y) mod 256 <-> 0 <= x + y < 256) /\
  (x * y = (x * y) mod 256 <-> 0 <= x * y < 256).
Proof.
  intros Ha Hb Hx Hy.
  destruct (ADD_run s a b x y Ha Hb Hx Hy) as (ra & Hra & Hadd).
  destruct (MUL_run s a b x y Ha Hb Hx Hy) as (rm & Hrm & Hmul).
  split; [exists ra; eauto using get_set_eq|].
  split; [exists rm; eauto using get_set_eq|].
  pose proof (Z.mod_pos_bound (x + y) 256 eq_refl) as Hsum.
  pose proof (Z.mod_pos_bound (x * y) 256 eq_refl) as Hprod.
  split; (split; [lia | intros; symmetry; apply Z.mod_small; lia]).
Qed.

Lemma ADD_MUL_exact_witness :
  (exists regs',
     ADD (boot_with [160; 0; 1] 200 100)
       = (Ok tt, set_reg regs' (boot_with [160; 0; 1] 200 100)) /\
     PyList.get regs' 0 = Some 300) /\
  (exists regs',
     MUL (boot_with [162; 0; 1] 200 100)
       = (Ok tt, set_reg regs' (boot_with [162; 0; 1] 200 100)) /\
     PyList.get regs' 0 = Some 20000).
Proof.
  split.
  - destruct (ADD_MUL_exact (boot_with [160; 0; 1] 200 100) 0 1 200 100)
      as ((regs' & Hadd & _ & Hget) & _); [reflexivity ..|].
    exists regs'. split; assumption.
  - destruct (ADD_MUL_exact (boot_with [162; 0; 1] 200 100) 0 1 200 100)
      as (_ & (regs' & Hmul & _ & Hget) & _); [reflexivity ..|].
    exists regs'. split; assumption.
Defined.

(** C6 fails as stated: with 200 and 100 in registers 0 and 1, ADD leaves
    300 in register 0, not 44, and the program that prints the sum prints
    300. *)
Lemma ADD_wraps_counterexample :
  fst (ADD (boot_with [160; 0; 1] 200 100)) = Ok tt /\
  PyList.get (reg (snd (ADD (boot_with [160; 0; 1] 200 100)))) 0 = Some 300 /\
  PyList.get (reg (snd (ADD (boot_with [160; 0; 1] 200 100)))) 0
    <> Some ((200 + 100) mod 256) /\
  (exists s, run 5 (boot overflow_program) = Some (Ok tt, s) /\ stdout s = [PrintInt 300]).
Proof.
  repeat split; [discriminate|]. eexists. split; vm_compute; reflexivity.
Qed.

(** ** Loading a program *)

Section Copy.

Variable program : list Z.

Lemma program_get k x :
  program !! k = Some x -> PyList.get program (Z.of_nat k) = Some x.
Proof.
  intros Hx. apply get_index. exists k. split; [|exact Hx].
  rewrite index_nonneg, Nat2Z.id; [reflexivity|].
  apply lookup_lt_Some in Hx. lia.
Qed.

Lemma copy_cell_inside s k x :
  program !! k = Some x ->
  (k < length (ram s))%nat ->
  copy_cell program (Z.of_nat k) s = (Ok tt, set_ram (<[k := x]> (ram s)) s).
Proof.
  intros Hx Hk. unfold copy_cell. unfold_m.
  rewrite (program_get _ _ Hx). unfold PyList.set.
  rewrite index_nonneg, Nat2Z.id by lia. reflexivity.
Qed.

Lemma copy_cell_outside s k x :
  program !! k = Some x ->
  (length (ram s) <= k)%nat ->
  copy_cell program (Z.of_nat k) s = (Raise IndexError, s).
Proof.
  intros Hx Hk. unfold copy_cell. unfold_m.
  rewrite (program_get _ _ Hx). unfold PyList.set.
  rewrite index_out_of_range by lia. reflexivity.
Qed.

(** From cell [k] on, with [d] cells of memory left and more than [d]
    values left to copy, the loop fills the [d] cells and then raises. *)
Lemma copy_overrun d : forall k s,
  length (ram s) = (k + d)%nat ->
  (length (ram s) < length program)%nat ->
  for_each (map Z.of_nat (seq k (length program - k))) (copy_cell program) s
    = (Raise IndexError, set_ram (take k (ram s) ++ take d (drop k program)) s).
Proof.
  induction d as [|d IH]; intros k s Hlen Hbig.
  - destruct (lookup_lt_is_Some_2 program k) as [x Hx]; [lia|].
    destruct (length program - k)%nat as [|m] eqn:Hm; [lia|].
    cbn [seq map for_each]. unfold bind.
    rewrite (copy_cell_outside s k x Hx) by lia.
    rewrite take_ge, app_nil_r by lia. destruct s; reflexivity.
  - destruct (lookup_lt_is_Some_2 program k) as [x Hx]; [lia|].
    destruct (length program - k)%nat as [|m] eqn:Hm; [lia|].
    cbn [seq map for_each]. unfold bind.
    rewrite (copy_cell_inside s k x Hx) by lia.
    replace m with (length program - S k)%nat by lia.
    rewrite IH; fields; rewrite ?length_insert; try lia.
    f_equal. unfold set_ram. fields. f_equal.
    rewrite (take_S_r _ k x) by (apply list_lookup_insert_eq; lia).
    rewrite take_insert_ge by lia.
    rewrite (drop_S program x k Hx). cbn [take].
    rewrite <- app_assoc. reflexivity.
Qed.

End Copy.

(** C7, as the code has it: for a program longer than memory, [load] prints
    the warning and goes on to the copy, which fills every memory cell with
    the leading values of the program and then raises [IndexError] at the
    first index past the end of memory. *)
Theorem load_oversized program s :
  (length (ram s) < length program)%nat ->
  load program s
    = (Raise IndexError,
       set_ram (take (length (ram s)) program)
         (set_stdout
            (stdout s ++ [PrintStr "The program is too large. Please upgrade the RAM."])
            s)).
Proof.
  intros Hbig. unfold load. unfold_m.
  apply Nat.ltb_lt in Hbig as Hb. rewrite Hb. apply Nat.ltb_lt in Hb.
  unfold range.
  replace (length program) with (length program - 0)%nat at 1 by lia.
  rewrite (copy_overrun program (length (ram s)) 0); fields; try lia.
  rewrite take_0, drop_0. reflexivity.
Qed.

Lemma load_oversized_witness :
  load oversized_program init
    = (Raise IndexError,
       set_ram (take 256 oversized_program)
         (set_stdout [PrintStr "The program is too large. Please upgrade the RAM."] init)).
Proof.
  apply (load_oversized oversized_program init). vm_compute. reflexivity.
Defined.

(** C7 fails as stated: loading 257 values into the 256 cells of a fresh
    processor prints the warning and then raises [IndexError]. *)
Lemma load_oversized_counterexample :
  length oversized_program = 257%nat /\
  length (ram init) = 256%nat /\
  fst (load oversized_program init) = Raise IndexError /\
  stdout (snd (load oversized_program init))
    = [PrintStr "The program is too large. Please upgrade the RAM."].
Proof. vm_compute. repeat split; reflexivity. Qed.

(** ** Unknown opcodes *)

Lemma format_08b_byte n : 0 <= n < 256 -> format_08b n = byte_bits n.
Proof.
  intros Hn.
  assert (Hall : forallb (fun k => String.eqb (format_08b k) (byte_bits k)) (range 256) = true)
    by (vm_compute; reflexivity).
  rewrite forallb_forall in Hall. apply String.eqb_eq, Hall.
  unfold range. apply in_map_iff. exists (Z.to_nat n).
  split; [lia|]. apply in_seq. lia.
Qed.

Lemma cycle_unknown s opcode :
  PyList.get (ram s) (pc s) = Some opcode ->
  instruction_table opcode = None ->
  cycle s
    = (Raise (Exception ("Unsupported operation: " ++ format_08b opcode)), set_ir opcode s).
Proof.
  intros Hfetch Htable. unfold cycle. unfold_m. rewrite Hfetch. fields.
  rewrite Htable. reflexivity.
Qed.

(** C8: when the fetched opcode is not a key of the dispatch table, the
    cycle raises an exception whose message ends with that value formatted
    by [08b] (for a byte: its eight bits), no handler having run: memory,
    registers, flags and pc are as before the cycle, and the loop stops
    there. *)
Theorem unknown_opcode_is_fatal s opcode :
  PyList.get (ram s) (pc s) = Some opcode ->
  instruction_table opcode = None ->
  cycle s
    = (Raise (Exception ("Unsupported operation: " ++ format_08b opcode)), set_ir opcode s) /\
  ram (set_ir opcode s) = ram s /\
  reg (set_ir opcode s) = reg s /\
  fl (set_ir opcode s) = fl s /\
  pc (set_ir opcode s) = pc s /\
  (forall fuel,
     working s = true ->
     while_working (S fuel) s
       = Some (Raise (Exception ("Unsupported operation: " ++ format_08b opcode)),
               set_ir opcode s)) /\
  (forall fuel,
     run (S fuel) s
       = Some (Raise (Exception ("Unsupported operation: " ++ format_08b opcode)),
               set_ir opcode (set_working true s))) /\
  (0 <= opcode < 256 -> format_08b opcode = byte_bits opcode).
Proof.
  intros Hfetch Htable.
  pose proof (cycle_unknown s opcode Hfetch Htable) as Hcycle.
  repeat split.
  - exact Hcycle.
  - intros fuel Hon. cbn [while_working]. rewrite Hon, Hcycle. reflexivity.
  - intros fuel. unfold run. cbn [while_working]. fields.
    rewrite (cycle_unknown (set_working true s) opcode Hfetch Htable). reflexivity.
  - apply format_08b_byte.
Qed.

Lemma unknown_opcode_is_fatal_witness :
  run 1 (boot [255])
    = Some (Raise (Exception "Unsupported operation: 11111111"),
            set_ir 255 (set_working true (boot [255]))).
Proof.
  refine (proj1 (proj2 (proj2 (proj2 (proj2 (proj2 (proj2
    (unknown_opcode_is_fatal (boot [255]) 255 _ _))))))) 0%nat);
    reflexivity.
Defined.

(** ** Stack-pointer underflow *)

Lemma PUSH_decrements s o s1 v :
  PyList.get (reg s) sp = Some v ->
  PUSH s = (o, s1) ->
  PyList.get (reg s1) sp = Some (v - 1).
Proof.
  intros Hv H.
  destruct (get_is_Some_set _ _ _ (v - 1) Hv) as [regs1 Hregs].
  unfold PUSH in H. unfold_m. rewrite Hv in H. fields. rewrite Hregs in H. fields.
  split_all_accesses H; injection H as _ <-; fields; eapply get_set_eq, Hregs.
Qed.

Lemma CALL_decrements s o s1 v :
  PyList.get (reg s) sp = Some v ->
  CALL s = (o, s1) ->
  PyList.get (reg s1) sp = Some (v - 1).
Proof.
  intros Hv H.
  destruct (get_is_Some_set _ _ _ (v - 1) Hv) as [regs1 Hregs].
  unfold CALL in H. unfold_m. fields. rewrite Hv in H. fields. rewrite Hregs in H. fields.
  split_all_accesses H; injection H as _ <-; fields; eapply get_set_eq, Hregs.
Qed.

Lemma set_wraps (l : list Z) i x :
  - Z.of_nat (length l) <= i < 0 ->
  PyList.set l i x = Some (<[Z.to_nat (Z.of_nat (length l) + i) := x]> l).
Proof.
  intros Hi. unfold PyList.set. rewrite index_negative by lia.
  rewrite Z.add_comm. reflexivity.
Qed.

Lemma PUSH_below_memory s v :
  PyList.get (reg s) sp = Some v ->
  v - 1 < - Z.of_nat (length (ram s)) ->
  fst (PUSH s) = Raise IndexError /\ ram (snd (PUSH s)) = ram s.
Proof.
  intros Hv Hlow.
  destruct (get_is_Some_set _ _ _ (v - 1) Hv) as [regs1 Hregs].
  pose proof (get_set_eq _ _ _ _ Hregs) as Hsp.
  assert (Hnone : forall x, PyList.set (ram s) (v - 1) x = None).
  { intros x. unfold PyList.set. rewrite index_out_of_range by lia. reflexivity. }
  unfold PUSH. unfold_m. rewrite Hv. fields. rewrite Hregs. fields.
  destruct (PyList.get (ram s) (pc s + 1)) as [a|]; fields; [|auto].
  destruct (PyList.get regs1 a) as [d|]; fields; [|auto].
  rewrite Hsp. fields. rewrite Hnone. auto.
Qed.

Lemma CALL_below_memory s v :
  PyList.get (reg s) sp = Some v ->
  v - 1 < - Z.of_nat (length (ram s)) ->
  fst (CALL s) = Raise IndexError /\ ram (snd (CALL s)) = ram s.
Proof.
  intros Hv Hlow.
  destruct (get_is_Some_set _ _ _ (v - 1) Hv) as [regs1 Hregs].
  pose proof (get_set_eq _ _ _ _ Hregs) as Hsp.
  assert (Hnone : forall x, PyList.set (ram s) (v - 1) x = None).
  { intros x. unfold PyList.set. rewrite index_out_of_range by lia. reflexivity. }
  unfold CALL. unfold_m. fields. rewrite Hv. fields. rewrite Hregs. fields.
  rewrite Hsp. fields. rewrite Hnone. auto.
Qed.

(** C10, as the code has it: PUSH and CALL decrement Register[7] whatever it
    holds, with no guard.  Going below zero raises nothing while the
    decremented value is in -256..-1: the store wraps to the end of memory
    (from Register[7] = 0, PUSH leaves -1 in Register[7] and writes the
    pushed value to Memory[255]).  Once the decremented value is below -256
    the store raises [IndexError]: the decrement has been made and memory is
    unchanged. *)
Theorem stack_pointer_underflow :
  (forall s o s1 v,
     PyList.get (reg s) sp = Some v ->
     PUSH s = (o, s1) ->
     PyList.get (reg s1) sp = Some (v - 1)) /\
  (forall s o s1 v,
     PyList.get (reg s) sp = Some v ->
     CALL s = (o, s1) ->
     PyList.get (reg s1) sp = Some (v - 1)) /\
  (forall s r,
     length (ram s) = 256%nat ->
     PyList.get (reg s) sp = Some 0 ->
     PyList.get (ram s) (pc s + 1) = Some r ->
     is_Some (PyList.get (reg s) r) ->
     exists regs1 data,
       PyList.set (reg s) sp (-1) = Some regs1 /\
       PyList.get regs1 sp = Some (-1) /\
       PyList.get regs1 r = Some data /\
       PUSH s = (Ok tt, set_ram (<[255%nat := data]> (ram s)) (set_reg regs1 s)) /\
       <[255%nat := data]> (ram s) !! 255%nat = Some data) /\
  (forall s v r,
     length (ram s) = 256%nat ->
     PyList.get (reg s) sp = Some v ->
     -255 <= v <= 0 ->
     PyList.get (ram s) (pc s + 1) = Some r ->
     is_Some (PyList.get (reg s) r) ->
     exists regs1 data,
       PyList.set (reg s) sp (v - 1) = Some regs1 /\
       PyList.get regs1 r = Some data /\
       PUSH s = (Ok tt, set_ram (<[Z.to_nat (255 + v) := data]> (ram s)) (set_reg regs1 s))) /\
  (forall s v o s1,
     length (ram s) = 256%nat ->
     PyList.get (reg s) sp = Some v ->
     -255 <= v <= 0 ->
     CALL s = (o, s1) ->
     ram s1 = <[Z.to_nat (255 + v) := pc s + 2]> (ram s) /\
     (forall r t,
        PyList.get (ram s1) (pc s + 1) = Some r ->
        PyList.get (reg s1) r = Some t ->
        o = Ok tt /\ pc s1 = t)) /\
  (forall s v,
     length (ram s) = 256%nat ->
     PyList.get (reg s) sp = Some v ->
     v <= -256 ->
     fst (PUSH s) = Raise IndexError /\
     ram (snd (PUSH s)) = ram s /\
     PyList.get (reg (snd (PUSH s))) sp = Some (v - 1) /\
     fst (CALL s) = Raise IndexError /\
     ram (snd (CALL s)) = ram s /\
     PyList.get (reg (snd (CALL s))) sp = Some (v - 1)).
Proof.
  assert (Hpush : forall s v r,
     length (ram s) = 256%nat ->
     PyList.get (reg s) sp = Some v ->
     -255 <= v <= 0 ->
     PyList.get (ram s) (pc s + 1) = Some r ->
     is_Some (PyList.get (reg s) r) ->
     exists regs1 data,
       PyList.set (reg s) sp (v - 1) = Some regs1 /\
       PyList.get regs1 r = Some data /\
       PUSH s = (Ok tt, set_ram (<[Z.to_nat (255 + v) := data]> (ram s)) (set_reg regs1 s))).
  { intros s v r Hlen Hv Hrange Hr Hreg.
    destruct (get_is_Some_set _ _ _ (v - 1) Hv) as [regs1 Hregs].
    destruct (get_is_Some_length (reg s) regs1 r) as [data Hdata];
      [symmetry; apply (set_length _ _ _ _ Hregs) | exact Hreg |].
    exists regs1, data. split; [exact Hregs|]. split; [exact Hdata|].
    apply (PUSH_run s v regs1 r data); try assumption.
    rewrite set_wraps by (rewrite Hlen; lia). rewrite Hlen.
    do 2 f_equal. lia. }
  split; [exact PUSH_decrements|]. split; [exact CALL_decrements|].
  split; [|split; [exact Hpush|split]].
  - intros s r Hlen Hv Hr Hreg.
    destruct (Hpush s 0 r Hlen Hv ltac:(lia) Hr Hreg) as (regs1 & data & Hregs & Hdata & Hrun).
    exists regs1, data. repeat split; try assumption.
    + eapply get_set_eq, Hregs.
    + apply list_lookup_insert_eq. rewrite Hlen. lia.
  - intros s v o s1 Hlen Hv Hrange H.
    destruct (get_is_Some_set _ _ _ (v - 1) Hv) as [regs1 Hregs].
    pose proof (get_set_eq _ _ _ _ Hregs) as Hsp.
    assert (Hram : PyList.set (ram s) (v - 1) (pc s + 1 + 1)
                   = Some (<[Z.to_nat (255 + v) := pc s + 2]> (ram s))).
    { rewrite set_wraps by (rewrite Hlen; lia). rewrite Hlen.
      do 2 f_equal; lia. }
    unfold CALL in H. unfold_m. fields. rewrite Hv in H. fields.
    rewrite Hregs in H. fields. rewrite Hsp in H. fields. rewrite Hram in H. fields.
    split_all_accesses H; injection H as <- <-; fields; (split; [reflexivity|]);
      intros r t Hr Ht; (split; [reflexivity || congruence | congruence]).
  - intros s v Hlen Hv Hlow.
    destruct (PUSH_below_memory s v Hv) as [Hpe Hpr]; [rewrite Hlen; lia|].
    destruct (CALL_below_memory s v Hv) as [Hce Hcr]; [rewrite Hlen; lia|].
    repeat split; try assumption.
    + apply (PUSH_decrements s (fst (PUSH s)) (snd (PUSH s)) v Hv).
      destruct (PUSH s); reflexivity.
    + apply (CALL_decrements s (fst (CALL s)) (snd (CALL s)) v Hv).
      destruct (CALL s); reflexivity.
Qed.

(** C10 fails as stated: with -256 in Register[7], PUSH and CALL raise
    [IndexError] (the decremented pointer -257 is no index of the 256
    cells), and a program that loads -256 into register 7 and pushes ends
    that way. *)
Lemma stack_pointer_underflow_counterexample :
  PyList.get (reg (with_sp (-256) (boot_with [69; 0] 42 0))) sp = Some (-256) /\
  fst (PUSH (with_sp (-256) (boot_with [69; 0] 42 0))) = Raise IndexError /\
  fst (CALL (with_sp (-256) (boot_with [80; 0] 42 0))) = Raise IndexError /\
  (exists s, run 2 (boot [130; 7; -256; 69; 0]) = Some (Raise IndexError, s) /\
             PyList.get (reg s) sp = Some (-257)).
Proof.
  split; [reflexivity|]. split; [reflexivity|]. split; [reflexivity|].
  eexists. split; vm_compute; reflexivity.
Qed.

(** ** Concrete runs *)

Lemma cycle_pc_advance_witness :
  cycle (boot mult_program)
    = (Ok tt, set_pc (pc (snd (LDI (set_ir 130 (boot mult_program)))) + (Z.shiftr 130 6 + 1))
                (snd (LDI (set_ir 130 (boot mult_program))))) /\
  cycle (boot_with [84; 0] 5 0) = (Ok tt, snd (JMP (set_ir 84 (boot_with [84; 0] 5 0)))).
Proof.
  split.
  - apply (proj1 (cycle_pc_advance (boot mult_program) 130 LDI
             (snd (LDI (set_ir 130 (boot mult_program))))
             ltac:(vm_compute; reflexivity) eq_refl ltac:(vm_compute; reflexivity))).
    vm_compute. reflexivity.
  - apply (proj1 (proj2 (cycle_pc_advance (boot_with [84; 0] 5 0) 84 JMP
             (snd (JMP (set_ir 84 (boot_with [84; 0] 5 0))))
             ltac:(vm_compute; reflexivity) eq_refl ltac:(vm_compute; reflexivity)))).
    vm_compute. reflexivity.
Defined.

Lemma CMP_sets_flags_witness :
  CMP (boot_with [167; 0; 1] 5 3) = (Ok tt, set_fl 2 (boot_with [167; 0; 1] 5 3)) /\
  CMP (boot_with [167; 0; 1] 3 5) = (Ok tt, set_fl 4 (boot_with [167; 0; 1] 3 5)) /\
  CMP (boot_with [167; 0; 1] 4 4) = (Ok tt, set_fl 1 (boot_with [167; 0; 1] 4 4)).
Proof.
  split; [|split].
  - refine (proj1 (CMP_sets_flags (boot_with [167; 0; 1] 5 3) 0 1 5 3 _ _ _ _) _);
      (reflexivity || lia).
  - refine (proj1 (proj2 (CMP_sets_flags (boot_with [167; 0; 1] 3 5) 0 1 3 5 _ _ _ _)) _);
      (reflexivity || lia).
  - refine (proj2 (proj2 (CMP_sets_flags (boot_with [167; 0; 1] 4 4) 0 1 4 4 _ _ _ _)) _);
      reflexivity.
Defined.

Lemma JEQ_JNE_shifted_flags_witness :
  JEQ (set_fl 1 (boot_with [85; 0] 9 0)) = JMP (set_fl 1 (boot_with [85; 0] 9 0)) /\
  JMP (set_fl 1 (boot_with [85; 0] 9 0)) = (Ok tt, set_pc 9 (set_fl 1 (boot_with [85; 0] 9 0))) /\
  JEQ (set_fl 4 (boot_with [85; 0] 9 0))
    = (Ok tt, set_pc (0 + 2) (set_fl 4 (boot_with [85; 0] 9 0))) /\
  JNE (set_fl 2 (boot_with [86; 0] 9 0)) = JMP (set_fl 2 (boot_with [86; 0] 9 0)) /\
  JNE (set_fl 1 (boot_with [86; 0] 9 0))
    = (Ok tt, set_pc (0 + 2) (set_fl 1 (boot_with [86; 0] 9 0))).
Proof.
  split; [|split; [|split; [|split]]].
  - apply (proj1 (JEQ_JNE_shifted_flags (set_fl 1 (boot_with [85; 0] 9 0)))). reflexivity.
  - apply (proj1 (proj2 (proj2 (proj2 (proj2
             (JEQ_JNE_shifted_flags (set_fl 1 (boot_with [85; 0] 9 0)))))))
             0 9); reflexivity.
  - apply (proj1 (proj2 (JEQ_JNE_shifted_flags (set_fl 4 (boot_with [85; 0] 9 0))))).
    vm_compute. lia.
  - apply (proj1 (proj2 (proj2 (JEQ_JNE_shifted_flags (set_fl 2 (boot_with [86; 0] 9 0)))))).
    vm_compute. lia.
  - apply (proj1 (proj2 (proj2 (proj2
             (JEQ_JNE_shifted_flags (set_fl 1 (boot_with [86; 0] 9 0))))))).
    reflexivity.
Defined.

Lemma CALL_then_RET_witness :
  pc (snd (CALL (boot_with [80; 0] 6 0))) = 6 /\
  PyList.get (reg (snd (CALL (boot_with [80; 0] 6 0)))) sp = Some 243 /\
  PyList.get (ram (snd (CALL (boot_with [80; 0] 6 0)))) 243 = Some 2 /\
  RET (snd (CALL (boot_with [80; 0] 6 0)))
    = (Ok tt, set_pc (0 + 2) (set_reg (reg (boot_with [80; 0] 6 0))
                                (snd (CALL (boot_with [80; 0] 6 0))))).
Proof.
  destruct (CALL_then_RET (boot_with [80; 0] 6 0) (snd (CALL (boot_with [80; 0] 6 0))))
    as (v & r & _ & _ & _ & _ & _ & _ & _ & _ & _ & _ & _ & Hret); [reflexivity|].
  split; [reflexivity|]. split; [reflexivity|]. split; [reflexivity|]. exact Hret.
Defined.

Lemma PUSH_then_POP_witness :
  exists s3,
    POP (set_pc 2 (snd (PUSH (boot_with [69; 0; 70; 0] 42 0)))) = (Ok tt, s3) /\
    PyList.get (reg s3) 0 = Some 42 /\
    PyList.get (reg s3) sp = Some 244.
Proof.
  destruct (PUSH_then_POP (boot_with [69; 0; 70; 0] 42 0)
              (snd (PUSH (boot_with [69; 0; 70; 0] 42 0))) 0
              (set_pc 2 (snd (PUSH (boot_with [69; 0; 70; 0] 42 0)))))
    as (x & v & s3 & Hx & Hv & Hpop & Hr & Hsp & _); try reflexivity.
  exists s3. split; [exact Hpop|].
  split; [rewrite Hr, <- Hx | rewrite Hsp, <- Hv]; reflexivity.
Defined.

Lemma JEQ_jumps_on_initial_flags_witness :
  JEQ (boot_with [85; 0] 9 0) = (Ok tt, set_pc 9 (boot_with [85; 0] 9 0)) /\
  JNE (boot_with [86; 0] 9 0) = (Ok tt, set_pc (0 + 2) (boot_with [86; 0] 9 0)).
Proof.
  split.
  - apply (proj1 (proj2 (proj2
             (JEQ_jumps_on_initial_flags (boot_with [85; 0] 9 0) eq_refl))) 0 9);
      reflexivity.
  - apply (proj1 (proj2 (JEQ_jumps_on_initial_flags (boot_with [86; 0] 9 0) eq_refl))).
Defined.

Lemma stack_pointer_underflow_witness :
  exists regs1,
    PUSH (with_sp 0 (boot_with [69; 0] 42 0))
      = (Ok tt, set_ram (<[255%nat := 42]> (ram (boot_with [69; 0] 42 0)))
                  (set_reg regs1 (with_sp 0 (boot_with [69; 0] 42 0)))) /\
    PyList.get regs1 sp = Some (-1).
Proof.
  destruct (proj1 (proj2 (proj2 stack_pointer_underflow))
              (with_sp 0 (boot_with [69; 0] 42 0)) 0)
    as (regs1 & data & Hregs & Hsp & Hdata & Hpush & _);
    [reflexivity | reflexivity | reflexivity | eexists; reflexivity |].
  exists regs1. split; [|exact Hsp].
  injection Hregs as <-. injection Hdata as <-. exact Hpush.
Defined.

(** ** The dispatch table, case by case *)

Lemma table_cases opcode handler :
  instruction_table opcode = Some handler ->
  (opcode = 130 /\ handler = LDI) \/ (opcode = 1 /\ handler = HLT) \/
  (opcode = 71 /\ handler = PRN) \/ (opcode = 162 /\ handler = MUL) \/
  (opcode = 160 /\ handler = ADD) \/ (opcode = 69 /\ handler = PUSH) \/
  (opcode = 70 /\ handler = POP) \/ (opcode = 80 /\ handler = CALL) \/
  (opcode = 17 /\ handler = RET) \/ (opcode = 167 /\ handler = CMP) \/
  (opcode = 85 /\ handler = JEQ) \/ (opcode = 86 /\ handler = JNE) \/
  (opcode = 84 /\ handler = JMP).
Proof.
  unfold instruction_table.
  repeat match goal with
    | |- match ?x with _ => _ end = _ -> _ => destruct x; try discriminate
    end;
    intros [= <-]; tauto.
Qed.

(** ** The four ways a cycle can go *)

Lemma cycle_inv s o s' :
  cycle s = (o, s') ->
  (PyList.get (ram s) (pc s) = None /\ o = Raise IndexError /\ s' = s) \/
  (exists opcode,
     PyList.get (ram s) (pc s) = Some opcode /\
     instruction_table opcode = None /\
     o = Raise (Exception ("Unsupported operation: " ++ format_08b opcode)) /\
     s' = set_ir opcode s) \/
  (exists opcode handler e,
     PyList.get (ram s) (pc s) = Some opcode /\
     instruction_table opcode = Some handler /\
     handler (set_ir opcode s) = (Raise e, s') /\
     o = Raise e) \/
  (exists opcode handler s1,
     PyList.get (ram s) (pc s) = Some opcode /\
     instruction_table opcode = Some handler /\
     handler (set_ir opcode s) = (Ok tt, s1) /\
     o = Ok tt /\
     s' = if Z.land (Z.shiftr opcode 4) 1 =? 0
          then set_pc (pc s1 + (Z.shiftr opcode 6 + 1)) s1 else s1).
Proof.
  unfold cycle. unfold_m.
  destruct (PyList.get (ram s) (pc s)) as [opcode|] eqn:Hfetch; fields;
    [|intros [= <- <-]; left; auto].
  destruct (instruction_table opcode) as [handler|] eqn:Htable;
    [|intros [= <- <-]; right; left; eauto].
  destruct (handler (set_ir opcode s)) as [[[]|e] s1] eqn:Hrun.
  - pose proof (handler_keeps_ir _ _ Htable _ _ _ Hrun) as Hir. fields.
    rewrite Hir. intros H. right; right; right.
    exists opcode, handler, s1. repeat split; try assumption.
    + destruct (Z.land (Z.shiftr opcode 4) 1 =? 0); congruence.
    + destruct (Z.land (Z.shiftr opcode 4) 1 =? 0); rewrite ?Hir in H; congruence.
  - intros [= <- <-]. right; right; left. eauto 8.
Qed.

(** ** Relations kept by the whole run *)

Section RunFrames.

Variable R : CPU -> CPU -> Prop.
Hypothesis R_refl : forall s, R s s.
Hypothesis R_trans : forall s1 s2 s3, R s1 s2 -> R s2 s3 -> R s1 s3.
Hypothesis R_cycle : keeps R cycle.

Lemma keeps_while_working fuel : forall s o s',
  while_working fuel s = Some (o, s') -> R s s'.
Proof.
  induction fuel as [|fuel IH]; intros s o s'; cbn [while_working].
  - destruct (working s); [discriminate|]. intros [= _ <-]. apply R_refl.
  - destruct (working s); [|intros [= _ <-]; apply R_refl].
    destruct (cycle s) as [[[]|e] s1] eqn:Hcycle.
    + intros H. eapply R_trans; [eapply R_cycle, Hcycle | eapply IH, H].
    + intros [= _ <-]. eapply R_cycle, Hcycle.
Qed.

Hypothesis R_working : forall s v, R s (set_working v s).

Lemma keeps_run fuel s o s' : run fuel s = Some (o, s') -> R s s'.
Proof.
  unfold run. intros H. eapply R_trans; [apply R_working|].
  eapply keeps_while_working, H.
Qed.

End RunFrames.

(** A relation kept by every handler and by the loop's own writes to [ir]
    and [pc] is kept by a cycle. *)
Lemma keeps_cycle (R : CPU -> CPU -> Prop) :
  (forall s, R s s) ->
  (forall s1 s2 s3, R s1 s2 -> R s2 s3 -> R s1 s3) ->
  (forall s v, R s (set_ir v s)) ->
  (forall s v, R s (set_pc v s)) ->
  (forall opcode handler, instruction_table opcode = Some handler -> keeps R handler) ->
  keeps R cycle.
Proof.
  intros Hrefl Htrans Hir Hpc Hhandlers s o s' H.
  destruct (cycle_inv _ _ _ H) as
    [(_ & _ & ->) | [(opcode & _ & _ & _ & ->) |
     [(opcode & handler & e & _ & Htable & Hrun & _) |
      (opcode & handler & s1 & _ & Htable & Hrun & _ & ->)]]].
  - apply Hrefl.
  - apply Hir.
  - eapply Htrans; [apply Hir | eapply Hhandlers; eassumption].
  - eapply Htrans; [apply Hir|].
    eapply Htrans; [eapply Hhandlers; eassumption|].
    destruct (Z.land (Z.shiftr opcode 4) 1 =? 0); [apply Hpc | apply Hrefl].
Qed.

(** ** Sizes of memory and of the register file *)

(** X1: a run, however it ends, leaves memory and the register file with
    the number of cells they had: no instruction grows or shrinks either. *)
Theorem run_keeps_sizes fuel s o s' :
  run fuel s = Some (o, s') ->
  length (ram s') = length (ram s) /\ length (reg s') = length (reg s).
Proof.
  apply (keeps_run (fun s s' =>
           length (ram s') = length (ram s) /\ length (reg s') = length (reg s))).
  - auto.
  - intros s1 s2 s3 [] []. split; congruence.
  - apply keeps_cycle; fields; auto.
    + intros s1 s2 s3 [] []. split; congruence.
    + apply handler_keeps_sizes.
  - auto.
Qed.

Lemma run_keeps_sizes_witness :
  length (ram (final (run 5 (boot mult_program)))) = length (ram (boot mult_program)) /\
  length (reg (final (run 5 (boot mult_program)))) = length (reg (boot mult_program)).
Proof.
  apply (run_keeps_sizes 5 (boot mult_program) (Ok tt)).
  vm_compute. reflexivity.
Defined.

(** ** Loading a program that fits *)

Lemma copy_fits program m : forall k s,
  (k + m = length program)%nat ->
  (length program <= length (ram s))%nat ->
  for_each (map Z.of_nat (seq k m)) (copy_cell program) s
    = (Ok tt, set_ram (take k (ram s) ++ take m (drop k program) ++ drop (k + m) (ram s)) s).
Proof.
  induction m as [|m IH]; intros k s Hkm Hfit.
  - cbn [seq map for_each]. rewrite Nat.add_0_r, take_0. cbn [app].
    rewrite take_drop. destruct s; reflexivity.
  - destruct (lookup_lt_is_Some_2 program k) as [x Hx]; [lia|].
    cbn [seq map for_each]. unfold bind.
    rewrite (copy_cell_inside program s k x Hx) by lia.
    rewrite IH; fields; rewrite ?length_insert; try lia.
    f_equal. unfold set_ram. fields. f_equal.
    rewrite (take_S_r _ k x) by (apply list_lookup_insert_eq; lia).
    rewrite take_insert_ge by lia.
    rewrite drop_insert_lt by lia.
    rewrite (drop_S program x k Hx). cbn [take].
    rewrite <- app_assoc. cbn [app].
    replace (S k + m)%nat with (k + S m)%nat by lia. reflexivity.
Qed.

Lemma load_copies program s :
  (length program <= length (ram s))%nat ->
  load program s = (Ok tt, set_ram (program ++ drop (length program) (ram s)) s).
Proof.
  intros Hfit. unfold load. unfold_m.
  assert (Hb : (length (ram s) <? length program)%nat = false) by (apply Nat.ltb_ge; lia).
  rewrite Hb. unfold range.
  rewrite (copy_fits program (length program) 0) by lia.
  rewrite take_0, drop_0, firstn_all. reflexivity.
Qed.

(** X2: a program no longer than memory is copied to the front of memory
    and [load] returns; nothing is printed and the cells past the program
    keep what they held (they are not cleared). *)
Theorem load_fits program s :
  (length program <= length (ram s))%nat ->
  load program s = (Ok tt, set_ram (program ++ drop (length program) (ram s)) s).
Proof. apply load_copies. Qed.

Lemma load_fits_witness :
  load mult_program init
    = (Ok tt, set_ram (mult_program ++ drop (length mult_program) (ram init)) init).
Proof.
  apply (load_fits mult_program init). vm_compute. lia.
Defined.

(** ** Memory and register accessors *)

Lemma get_in_range (l : list Z) i :
  - Z.of_nat (length l) <= i < Z.of_nat (length l) -> is_Some (PyList.get l i).
Proof.
  intros Hi. unfold PyList.get.
  destruct (Z_lt_le_dec i 0).
  - rewrite index_negative by lia. apply lookup_lt_is_Some_2. lia.
  - rewrite index_nonneg by lia. apply lookup_lt_is_Some_2. lia.
Qed.

Lemma get_out_of_range (l : list Z) i :
  i < - Z.of_nat (length l) \/ Z.of_nat (length l) <= i -> PyList.get l i = None.
Proof. intros Hi. unfold PyList.get. rewrite index_out_of_range by exact Hi. reflexivity. Qed.

Lemma set_out_of_range (l : list Z) i v :
  i < - Z.of_nat (length l) \/ Z.of_nat (length l) <= i -> PyList.set l i v = None.
Proof. intros Hi. unfold PyList.set. rewrite index_out_of_range by exact Hi. reflexivity. Qed.

(** X3: the accessors accept exactly the addresses from [-len] to [len - 1]:
    inside that range a read returns a value and a write returns, both
    leaving the sizes alone; outside it both raise [IndexError] and change
    nothing.  The same holds for memory and for the register file. *)
Theorem accessor_bounds s a v :
  (- Z.of_nat (length (ram s)) <= a < Z.of_nat (length (ram s)) ->
     (exists x, ram_read a s = (Ok x, s)) /\
     (exists r', ram_write a v s = (Ok tt, set_ram r' s) /\ length r' = length (ram s))) /\
  (a < - Z.of_nat (length (ram s)) \/ Z.of_nat (length (ram s)) <= a ->
     ram_read a s = (Raise IndexError, s) /\ ram_write a v s = (Raise IndexError, s)) /\
  (- Z.of_nat (length (reg s)) <= a < Z.of_nat (length (reg s)) ->
     (exists x, reg_read a s = (Ok x, s)) /\
     (exists r', reg_write a v s = (Ok tt, set_reg r' s) /\ length r' = length (reg s))) /\
  (a < - Z.of_nat (length (reg s)) \/ Z.of_nat (length (reg s)) <= a ->
     reg_read a s = (Raise IndexError, s) /\ reg_write a v s = (Raise IndexError, s)).
Proof.
  unfold_m. split; [|split; [|split]].
  - intros Hin. destruct (get_in_range _ _ Hin) as [x Hx].
    destruct (get_is_Some_set _ _ _ v Hx) as [r' Hr'].
    rewrite Hx, Hr'. split; [eauto|]. exists r'. split; [reflexivity|].
    eapply set_length, Hr'.
  - intros Hout. rewrite get_out_of_range, set_out_of_range by exact Hout. auto.
  - intros Hin. destruct (get_in_range _ _ Hin) as [x Hx].
    destruct (get_is_Some_set _ _ _ v Hx) as [r' Hr'].
    rewrite Hx, Hr'. split; [eauto|]. exists r'. split; [reflexivity|].
    eapply set_length, Hr'.
  - intros Hout. rewrite get_out_of_range, set_out_of_range by exact Hout. auto.
Qed.

Lemma accessor_bounds_witness :
  (exists x, ram_read (-1) init = (Ok x, init)) /\
  ram_read 256 init = (Raise IndexError, init) /\
  ram_write (-257) 5 init = (Raise IndexError, init) /\
  reg_read 8 init = (Raise IndexError, init).
Proof.
  split; [|split; [|split]].
  - apply (proj1 (accessor_bounds init (-1) 0)). simpl. lia.
  - apply (proj1 (proj2 (accessor_bounds init 256 0))). simpl. lia.
  - apply (proj1 (proj2 (accessor_bounds init (-257) 5))). simpl. lia.
  - apply (proj2 (proj2 (proj2 (accessor_bounds init 8 0)))). simpl. lia.
Defined.

Lemma index_alias len i :
  0 <= i < Z.of_nat len -> PyList.index len (i - Z.of_nat len) = PyList.index len i.
Proof.
  intros Hi. rewrite index_negative, index_nonneg by lia. f_equal. lia.
Qed.

(** X4: after a write that returns, reading the same address gives the
    value written, so does reading the other name of the same cell (the
    address minus the size), every cell at another position reads as
    before, and nothing but the written list has changed.  The same holds
    for the register file. *)
Theorem write_then_read s a v s1 :
  (ram_write a v s = (Ok tt, s1) ->
     ram_read a s1 = (Ok v, s1) /\
     (0 <= a -> ram_read (a - Z.of_nat (length (ram s))) s1 = (Ok v, s1)) /\
     (forall b,
        PyList.index (length (ram s)) b <> PyList.index (length (ram s)) a ->
        PyList.get (ram s1) b = PyList.get (ram s) b) /\
     s1 = set_ram (ram s1) s) /\
  (reg_write a v s = (Ok tt, s1) ->
     reg_read a s1 = (Ok v, s1) /\
     (0 <= a -> reg_read (a - Z.of_nat (length (reg s))) s1 = (Ok v, s1)) /\
     (forall b,
        PyList.index (length (reg s)) b <> PyList.index (length (reg s)) a ->
        PyList.get (reg s1) b = PyList.get (reg s) b) /\
     s1 = set_reg (reg s1) s).
Proof.
  unfold_m. split; intros H.
  - destruct (PyList.set (ram s) a v) as [r'|] eqn:Hset; [|discriminate].
    injection H as <-. fields.
    rewrite (get_set_eq _ _ _ _ Hset). repeat split.
    + intros Ha. erewrite get_set_same_index; [reflexivity | exact Hset |].
      apply index_alias. apply set_index in Hset as (n & Hn & _).
      destruct (Z_lt_le_dec a (Z.of_nat (length (ram s)))); [lia|].
      rewrite index_out_of_range in Hn by lia. discriminate.
    + intros b Hb. eapply get_set_ne; eassumption.
  - destruct (PyList.set (reg s) a v) as [r'|] eqn:Hset; [|discriminate].
    injection H as <-. fields.
    rewrite (get_set_eq _ _ _ _ Hset). repeat split.
    + intros Ha. erewrite get_set_same_index; [reflexivity | exact Hset |].
      apply index_alias. apply set_index in Hset as (n & Hn & _).
      destruct (Z_lt_le_dec a (Z.of_nat (length (reg s)))); [lia|].
      rewrite index_out_of_range in Hn by lia. discriminate.
    + intros b Hb. eapply get_set_ne; eassumption.
Qed.

Lemma write_then_read_witness :
  ram_read 255 (snd (ram_write 255 9 init)) = (Ok 9, snd (ram_write 255 9 init)) /\
  ram_read (255 - Z.of_nat (length (ram init))) (snd (ram_write 255 9 init))
    = (Ok 9, snd (ram_write 255 9 init)).
Proof.
  destruct (proj1 (write_then_read init 255 9 (snd (ram_write 255 9 init))))
    as (Hsame & Halias & _); [vm_compute; reflexivity|].
  split; [exact Hsame|]. apply Halias. lia.
Defined.

(** ** Which handler writes what *)

Ltac by_table H :=
  apply table_cases in H;
  repeat (destruct H as [[-> ->]|H]); [.. | destruct H as [-> ->]].

Ltac keeps_field :=
  first [ apply keeps_LDI | apply keeps_HLT | apply keeps_PRN | apply keeps_MUL
        | apply keeps_ADD | apply keeps_PUSH | apply keeps_POP | apply keeps_CALL
        | apply keeps_RET | apply keeps_CMP | apply keeps_JEQ | apply keeps_JNE
        | apply keeps_JMP ];
  simpl; intros; congruence.

Lemma handler_keeps_working opcode handler :
  opcode <> 1 ->
  instruction_table opcode = Some handler ->
  keeps (fun s s' => working s' = working s) handler.
Proof. intros Hne H. by_table H; try congruence; keeps_field. Qed.

Lemma handler_keeps_pc opcode handler :
  Z.land (Z.shiftr opcode 4) 1 = 0 ->
  instruction_table opcode = Some handler ->
  keeps (fun s s' => pc s' = pc s) handler.
Proof. intros Hbit H. by_table H; try discriminate Hbit; keeps_field. Qed.

Lemma handler_keeps_ram opcode handler :
  opcode <> 69 -> opcode <> 80 ->
  instruction_table opcode = Some handler ->
  keeps (fun s s' => ram s' = ram s) handler.
Proof. intros Hpush Hcall H. by_table H; try congruence; keeps_field. Qed.

Lemma handler_keeps_stdout opcode handler :
  opcode <> 71 ->
  instruction_table opcode = Some handler ->
  keeps (fun s s' => stdout s' = stdout s) handler.
Proof. intros Hne H. by_table H; try congruence; keeps_field. Qed.

Lemma handler_keeps_reg opcode handler :
  In opcode [1; 71; 167; 85; 86; 84] ->
  instruction_table opcode = Some handler ->
  keeps (fun s s' => reg s' = reg s) handler.
Proof.
  intros Hin H.
  by_table H; try (exfalso; cbn [In] in Hin; intuition discriminate); keeps_field.
Qed.

(** A relation kept by the handlers of the opcodes in [P] is kept by every
    cycle that ends with such an opcode in [ir]. *)
Lemma keeps_cycle_unless (R : CPU -> CPU -> Prop) (P : Z -> Prop) :
  (forall s, R s s) ->
  (forall s1 s2 s3, R s1 s2 -> R s2 s3 -> R s1 s3) ->
  (forall s v, R s (set_ir v s)) ->
  (forall s v, R s (set_pc v s)) ->
  (forall opcode handler,
     P opcode -> instruction_table opcode = Some handler -> keeps R handler) ->
  forall s o s', cycle s = (o, s') -> P (ir s') -> R s s'.
Proof.
  intros Hrefl Htrans Hir Hpc Hhandlers s o s' H HP.
  destruct (cycle_inv _ _ _ H) as
    [(_ & _ & ->) | [(opcode & _ & _ & _ & ->) |
     [(opcode & handler & e & _ & Htable & Hrun & _) |
      (opcode & handler & s1 & _ & Htable & Hrun & _ & ->)]]].
  - apply Hrefl.
  - apply Hir.
  - pose proof (handler_keeps_ir _ _ Htable _ _ _ Hrun) as E. fields.
    rewrite E in HP.
    eapply Htrans; [apply Hir | eapply Hhandlers; eassumption].
  - pose proof (handler_keeps_ir _ _ Htable _ _ _ Hrun) as E. fields.
    assert (HP1 : P opcode)
      by (destruct (Z.land (Z.shiftr opcode 4) 1 =? 0); fields; congruence).
    eapply Htrans; [apply Hir|].
    eapply Htrans; [eapply Hhandlers; eassumption|].
    destruct (Z.land (Z.shiftr opcode 4) 1 =? 0); [apply Hpc | apply Hrefl].
Qed.

(** X5: in one pass of the loop, memory is written only by PUSH and CALL,
    the register file only by LDI, MUL, ADD, PUSH, POP, CALL and RET, the
    output only by PRN and the working flag only by HLT, whether the pass
    returns or raises; [ir] holds the opcode the pass fetched. *)
Theorem cycle_write_sets s o s' :
  cycle s = (o, s') ->
  (ir s' <> 69 -> ir s' <> 80 -> ram s' = ram s) /\
  (In (ir s') [1; 71; 167; 85; 86; 84] \/ instruction_table (ir s') = None ->
     reg s' = reg s) /\
  (ir s' <> 71 -> stdout s' = stdout s) /\
  (ir s' <> 1 -> working s' = working s).
Proof.
  intros H. repeat split.
  - intros Hpush Hcall.
    apply (keeps_cycle_unless (fun s s' => ram s' = ram s)
             (fun op => op <> 69 /\ op <> 80)) with (o := o); auto; try congruence.
    intros opcode handler []. apply handler_keeps_ram; assumption.
  - intros Hop.
    apply (keeps_cycle_unless (fun s s' => reg s' = reg s)
             (fun op => In op [1; 71; 167; 85; 86; 84] \/ instruction_table op = None))
      with (o := o); auto; try congruence.
    intros opcode handler [Hin|Hnone] Htable; [|congruence].
    eapply handler_keeps_reg; eassumption.
  - intros Hprn.
    apply (keeps_cycle_unless (fun s s' => stdout s' = stdout s) (fun op => op <> 71))
      with (o := o); auto; try congruence.
    intros opcode handler Hne. apply handler_keeps_stdout, Hne.
  - intros Hhlt.
    apply (keeps_cycle_unless (fun s s' => working s' = working s) (fun op => op <> 1))
      with (o := o); auto; try congruence.
    intros opcode handler Hne. apply handler_keeps_working, Hne.
Qed.

Lemma cycle_write_sets_witness :
  ram (snd (cycle (boot mult_program))) = ram (boot mult_program) /\
  stdout (snd (cycle (boot mult_program))) = stdout (boot mult_program) /\
  working (snd (cycle (boot mult_program))) = working (boot mult_program).
Proof.
  destruct (cycle_write_sets (boot mult_program) (Ok tt) (snd (cycle (boot mult_program))))
    as (Hram & _ & Hout & Hwork); [vm_compute; reflexivity|].
  split; [|split].
  - apply Hram; vm_compute; discriminate.
  - apply Hout; vm_compute; discriminate.
  - apply Hwork; vm_compute; discriminate.
Defined.

(** ** Halting *)

Lemma cycle_HLT s :
  PyList.get (ram s) (pc s) = Some 1 ->
  cycle s = (Ok tt, set_pc (pc s + 1) (set_working false (set_ir 1 s))).
Proof.
  intros Hfetch. unfold cycle. unfold_m. rewrite Hfetch. reflexivity.
Qed.

(** X6: when the cell at pc holds HLT, [run] stops after that one pass
    whatever bound it was given, with the working flag cleared and pc one
    past the HLT; memory, registers, flags and output are untouched. *)
Theorem HLT_stops_run s fuel :
  PyList.get (ram s) (pc s) = Some 1 ->
  run (S fuel) s
    = Some (Ok tt, set_pc (pc s + 1) (set_working false (set_ir 1 s))).
Proof.
  intros Hfetch. unfold run. cbn [while_working]. fields.
  rewrite (cycle_HLT (set_working true s) Hfetch). fields.
  destruct fuel; reflexivity.
Qed.

Lemma HLT_stops_run_witness :
  run 1 (boot [1])
    = Some (Ok tt, set_pc (pc (boot [1]) + 1) (set_working false (set_ir 1 (boot [1])))).
Proof.
  apply (HLT_stops_run (boot [1]) 0). vm_compute. reflexivity.
Defined.

Lemma while_working_returns fuel : forall s s',
  working s = true ->
  while_working fuel s = Some (Ok tt, s') ->
  working s' = false /\ ir s' = 1 /\ PyList.get (ram s') (pc s' - 1) = Some 1.
Proof.
  induction fuel as [|fuel IH]; intros s s' Hon; cbn [while_working]; rewrite Hon;
    [discriminate|].
  destruct (cycle s) as [[[]|e] s1] eqn:Hcycle; [|discriminate].
  destruct (working s1) eqn:Hon1; [apply IH, Hon1|].
  destruct fuel; cbn [while_working]; rewrite Hon1; intros [= <-].
  all: destruct (cycle_inv _ _ _ Hcycle) as
    [(_ & [=] & _) | [(opcode & _ & _ & [=] & _) |
     [(opcode & handler & e & _ & _ & _ & [=]) |
      (opcode & handler & s2 & Hfetch & Htable & Hrun & _ & ->)]]].
  all: destruct (Z.eq_dec opcode 1) as [->|Hne];
    [ injection Htable as <-; injection Hrun as <-;
      change (Z.land (Z.shiftr 1 4) 1 =? 0) with true;
      change (Z.shiftr 1 6 + 1) with 1; fields;
      replace (pc s + 1 - 1) with (pc s) by lia; auto
    | pose proof (handler_keeps_working _ _ Hne Htable _ _ _ Hrun) as Hw;
      fields;
      destruct (Z.land (Z.shiftr opcode 4) 1 =? 0); fields; congruence ].
Qed.

(** X7: [run] returns normally only by executing HLT: whenever it returns,
    the working flag is cleared, [ir] holds the HLT opcode and the cell just
    before pc holds HLT. *)
Theorem run_returns_only_on_HLT fuel s s' :
  run fuel s = Some (Ok tt, s') ->
  working s' = false /\ ir s' = 1 /\ PyList.get (ram s') (pc s' - 1) = Some 1.
Proof.
  unfold run. apply while_working_returns. reflexivity.
Qed.

Lemma run_returns_only_on_HLT_witness :
  working (final (run 5 (boot mult_program))) = false /\
  ir (final (run 5 (boot mult_program))) = 1 /\
  PyList.get (ram (final (run 5 (boot mult_program))))
    (pc (final (run 5 (boot mult_program))) - 1) = Some 1.
Proof.
  apply (run_returns_only_on_HLT 5 (boot mult_program)).
  vm_compute. reflexivity.
Defined.

(** ** Straight-line instructions *)

(** X8: a pass that returns on an opcode with bit 4 clear moves pc from the
    opcode to the cell after its operands: the handlers of such opcodes
    never write pc, so pc grows by the operand count plus one, which is 1, 2
    or 3. *)
Theorem cycle_steps_to_next_instruction s s' :
  cycle s = (Ok tt, s') ->
  Z.land (Z.shiftr (ir s') 4) 1 = 0 ->
  PyList.get (ram s) (pc s) = Some (ir s') /\
  pc s' = pc s + Z.shiftr (ir s') 6 + 1 /\
  1 <= pc s' - pc s <= 3.
Proof.
  intros Hcycle Hbit.
  destruct (cycle_inv _ _ _ Hcycle) as
    [(_ & [=] & _) | [(opcode & _ & _ & [=] & _) |
     [(opcode & handler & e & _ & _ & _ & [=]) |
      (opcode & handler & s1 & Hfetch & Htable & Hrun & _ & ->)]]].
  pose proof (handler_keeps_ir _ _ Htable _ _ _ Hrun) as Hir. fields.
  assert (Hop : Z.land (Z.shiftr opcode 4) 1 = 0)
    by (destruct (Z.land (Z.shiftr opcode 4) 1 =? 0); fields; congruence).
  pose proof (handler_keeps_pc _ _ Hop Htable _ _ _ Hrun) as Hpc. fields.
  rewrite Hop. change (0 =? 0) with true. fields. rewrite Hir, Hpc.
  split; [exact Hfetch|]. split; [lia|].
  assert (0 <= Z.shiftr opcode 6 <= 2)
    by (clear - Htable; by_table Htable; vm_compute; split; discriminate).
  lia.
Qed.

Lemma cycle_steps_to_next_instruction_witness :
  pc (snd (cycle (boot mult_program)))
    = pc (boot mult_program) + Z.shiftr (ir (snd (cycle (boot mult_program)))) 6 + 1.
Proof.
  apply (cycle_steps_to_next_instruction (boot mult_program) (snd (cycle (boot mult_program))));
    vm_compute; reflexivity.
Defined.

(** ** Flags *)

Lemma CMP_any s o s' :
  CMP s = (o, s') ->
  s' = s \/ s' = set_fl 1 s \/ s' = set_fl 2 s \/ s' = set_fl 4 s.
Proof.
  intros H. unfold CMP, alu in H. unfold_m. cbn [String.eqb Ascii.eqb Bool.eqb] in H.
  repeat match type of H with
    | context [PyList.get ?l ?i] =>
        let E := fresh "Hget" in destruct (PyList.get l i) eqn:E; fields
    | context [if ?b then _ else _] => destruct b; fields
    end;
    injection H as _ <-; auto.
Qed.

(** X9: the flags register never holds anything but the value it had when
    [run] was called or one of 0b001, 0b010, 0b100, however the run ends. *)
Theorem run_flags_values fuel s o s' :
  run fuel s = Some (o, s') ->
  fl s' = fl s \/ fl s' = 1 \/ fl s' = 2 \/ fl s' = 4.
Proof.
  apply (keeps_run (fun s s' => fl s' = fl s \/ fl s' = 1 \/ fl s' = 2 \/ fl s' = 4)).
  - auto.
  - intros s1 s2 s3 H12 [H23|H23]; [rewrite H23; exact H12 | auto].
  - apply keeps_cycle; fields; auto.
    + intros s1 s2 s3 H12 [H23|H23]; [rewrite H23; exact H12 | auto].
    + intros opcode handler Htable.
      destruct (Z.eq_dec opcode 167) as [->|Hne].
      * injection Htable as <-. intros s1 o1 s2 Hcmp.
        destruct (CMP_any _ _ _ Hcmp) as [-> | [-> | [-> | ->] ] ]; fields; auto.
      * intros s1 o1 s2 Hrun. left.
        exact (handler_keeps_fl _ _ Hne Htable _ _ _ Hrun).
  - auto.
Qed.

Lemma run_flags_values_witness :
  fl (final (run 4 (boot_with branch_program 4 4))) = fl (boot_with branch_program 4 4) \/
  fl (final (run 4 (boot_with branch_program 4 4))) = 1 \/
  fl (final (run 4 (boot_with branch_program 4 4))) = 2 \/
  fl (final (run 4 (boot_with branch_program 4 4))) = 4.
Proof.
  apply (run_flags_values 4 (boot_with branch_program 4 4)
           (fst (match run 4 (boot_with branch_program 4 4) with
                 | Some r => r
                 | None => (Ok tt, init)
                 end))).
  vm_compute. reflexivity.
Defined.

(** ** Output *)





(** ** What a run can raise *)

Section OnlyIndexError.

Lemma roi_ret {A} (a : A) : raises_only_IndexError (ret a).
Proof. intros s e s'. unfold ret. discriminate. Qed.

Lemma roi_gets {A} (f : CPU -> A) : raises_only_IndexError (gets f).
Proof. intros s e s'. unfold gets. discriminate. Qed.

Lemma roi_modify f : raises_only_IndexError (modify f).
Proof. intros s e s'. unfold modify. discriminate. Qed.

Lemma roi_lift_index {A} (x : option A) : raises_only_IndexError (lift_index x).
Proof.
  intros s e s'. destruct x; unfold lift_index, ret, raise; [discriminate|].
  intros [= <- _]. reflexivity.
Qed.

Lemma roi_bind {A B} (m : M A) (k : A -> M B) :
  raises_only_IndexError m ->
  (forall a, raises_only_IndexError (k a)) ->
  raises_only_IndexError (bind m k).
Proof.
  intros Hm Hk s e s'. unfold bind.
  destruct (m s) as [[a|e1] s1] eqn:Em.
  - apply Hk.
  - intros [= <- _]. eapply Hm, Em.
Qed.

Lemma roi_if {A} (b : bool) (m1 m2 : M A) :
  raises_only_IndexError m1 ->
  raises_only_IndexError m2 ->
  raises_only_IndexError (if b then m1 else m2).
Proof. destruct b; auto. Qed.

Ltac roi :=
  repeat first
    [ apply roi_ret | apply roi_gets | apply roi_modify | apply roi_lift_index
    | apply roi_bind; [|intros]
    | apply roi_if ].

Lemma roi_handler opcode handler :
  instruction_table opcode = Some handler -> raises_only_IndexError handler.
Proof.
  intros H. by_table H.
  all: unfold LDI, HLT, PRN, MUL, ADD, PUSH, POP, CALL, RET, CMP, JEQ, JNE, JMP,
         alu, ram_read, ram_write, reg_read, reg_write, print;
       cbn [String.eqb Ascii.eqb Bool.eqb]; roi.
Qed.

End OnlyIndexError.

Lemma while_working_raises fuel e s' : forall s,
  while_working fuel s = Some (Raise e, s') ->
  exists s0, cycle s0 = (Raise e, s').
Proof.
  induction fuel as [|fuel IH]; intros s; cbn [while_working];
    destruct (working s); try discriminate.
  destruct (cycle s) as [[[]|e1] s1] eqn:Hcycle.
  - apply IH.
  - intros [= <- <-]. eauto.
Qed.

(** X11: a run never raises the ALU's exception.  When a run fails and the
    opcode in [ir] is not PRN, it fails in one of two ways: with
    [IndexError], from an address or register number out of range, or with
    the unsupported-operation exception naming the value in [ir], which is
    then the cell at pc and is not a key of the dispatch table. *)
Theorem run_failures fuel s e s' :
  run fuel s = Some (Raise e, s') ->
  e <> Exception "Unsupported ALU operation" /\
  (ir s' <> 71 ->
   e = IndexError \/
   (e = Exception ("Unsupported operation: " ++ format_08b (ir s')) /\
    instruction_table (ir s') = None /\
    PyList.get (ram s') (pc s') = Some (ir s'))).
Proof.
  unfold run. intros (s0 & Hcycle)%while_working_raises.
  destruct (cycle_inv _ _ _ Hcycle) as
    [(_ & [= ->] & _) | [(opcode & Hfetch & Htable & [= ->] & ->) |
     [(opcode & handler & e1 & _ & Htable & Hrun & [= ->]) |
      (opcode & handler & s1 & _ & _ & _ & [=] & _)]]].
  - split; [discriminate | auto].
  - split; [cbn [append]; discriminate|]. intros _. right. fields. auto.
  - rewrite (roi_handler _ _ Htable _ _ _ Hrun). split; [discriminate | auto].
Qed.

Lemma run_failures_witness :
  Exception "Unsupported operation: 11111111" <> Exception "Unsupported ALU operation" /\
  (Exception "Unsupported operation: 11111111" = IndexError \/
   (Exception "Unsupported operation: 11111111"
      = Exception ("Unsupported operation: "
                     ++ format_08b (ir (set_ir 255 (set_working true (boot [255]))))) /\
    instruction_table (ir (set_ir 255 (set_working true (boot [255])))) = None /\
    PyList.get (ram (set_ir 255 (set_working true (boot [255]))))
      (pc (set_ir 255 (set_working true (boot [255]))))
      = Some (ir (set_ir 255 (set_working true (boot [255])))))).
Proof.
  destruct (run_failures 1 (boot [255])
              (Exception "Unsupported operation: 11111111")
              (set_ir 255 (set_working true (boot [255]))))
    as [Halu Hkind]; [vm_compute; reflexivity|].
  split; [exact Halu|]. apply Hkind. vm_compute. discriminate.
Defined.

(** X12: the ALU rejects every operation name other than ADD, MUL and CMP
    (the comparison is exact, so lower case is rejected too) before it
    touches a register: it raises its exception and the state is unchanged,
    even when the register numbers are out of range. *)
Theorem alu_unsupported op reg_a reg_b s :
  op <> "ADD" -> op <> "MUL" -> op <> "CMP" ->
  alu op reg_a reg_b s = (Raise (Exception "Unsupported ALU operation"), s).
Proof.
  intros Hadd Hmul Hcmp. unfold alu.
  apply String.eqb_neq in Hadd, Hmul, Hcmp. rewrite Hadd, Hmul, Hcmp. reflexivity.
Qed.

Lemma alu_unsupported_witness :
  alu "add" 99 99 init = (Raise (Exception "Unsupported ALU operation"), init).
Proof.
  apply (alu_unsupported "add" 99 99 init); discriminate.
Defined.

(** ** Instructions in sequence *)

Lemma cycle_run s opcode handler s1 :
  PyList.get (ram s) (pc s) = Some opcode ->
  instruction_table opcode = Some handler ->
  handler (set_ir opcode s) = (Ok tt, s1) ->
  cycle s = (Ok tt, if Z.land (Z.shiftr opcode 4) 1 =? 0
                    then set_pc (pc s1 + (Z.shiftr opcode 6 + 1)) s1 else s1).
Proof.
  intros Hfetch Htable Hrun.
  pose proof (handler_keeps_ir _ _ Htable _ _ _ Hrun) as Hir. fields.
  unfold cycle. unfold_m. rewrite Hfetch. fields.
  rewrite Htable, Hrun, Hir.
  destruct (Z.land (Z.shiftr opcode 4) 1 =? 0); rewrite ?Hir; reflexivity.
Qed.

Lemma LDI_run s r v regs' :
  PyList.get (ram s) (pc s + 1) = Some r ->
  PyList.get (ram s) (pc s + 2) = Some v ->
  PyList.set (reg s) r v = Some regs' ->
  LDI s = (Ok tt, set_reg regs' s).
Proof.
  intros Hr Hv Hregs. unfold LDI. unfold_m.
  rewrite Hr. fields. rewrite Hv. fields. rewrite Hregs. reflexivity.
Qed.

Lemma PRN_run s r x :
  PyList.get (ram s) (pc s + 1) = Some r ->
  PyList.get (reg s) r = Some x ->
  PRN s = (Ok tt, set_stdout (stdout s ++ [PrintInt x]) s).
Proof.
  intros Hr Hx. unfold PRN. unfold_m.
  rewrite Hr. fields. rewrite Hx. reflexivity.
Qed.

(** X13: LDI of a value into a register followed by PRN of that register
    prints exactly that value when it is one [print] can render (fewer than
    4301 decimal digits; it is not reduced to a byte), leaves it in the
    register and moves pc past both instructions; memory, flags and the
    working flag are untouched. *)
Theorem LDI_then_PRN s r v :
  Z.abs v < 10 ^ 4300 ->
  PyList.get (ram s) (pc s) = Some 130 ->
  PyList.get (ram s) (pc s + 1) = Some r ->
  PyList.get (ram s) (pc s + 2) = Some v ->
  PyList.get (ram s) (pc s + 3) = Some 71 ->
  PyList.get (ram s) (pc s + 4) = Some r ->
  is_Some (PyList.get (reg s) r) ->
  exists regs',
    PyList.set (reg s) r v = Some regs' /\
    PyList.get regs' r = Some v /\
    two_cycles s
      = (Ok tt, mkCPU (ram s) (pc s + 5) 71 regs' (working s) (fl s)
                  (stdout s ++ [PrintInt v])).
Proof.
  intros _ Hop1 Hr1 Hv Hop2 Hr2 [x Hx].
  destruct (get_is_Some_set _ _ _ v Hx) as [regs' Hregs].
  pose proof (get_set_eq _ _ _ _ Hregs) as Hget.
  exists regs'. split; [exact Hregs|]. split; [exact Hget|].
  unfold two_cycles, bind.
  rewrite (cycle_run s 130 LDI (set_reg regs' (set_ir 130 s)) Hop1 eq_refl
             (LDI_run (set_ir 130 s) r v regs' Hr1 Hv Hregs)).
  change (Z.land (Z.shiftr 130 4) 1 =? 0) with true.
  change (Z.shiftr 130 6 + 1) with 3. fields.
  rewrite (cycle_run _ 71 PRN
             (set_stdout (stdout s ++ [PrintInt v])
                (set_ir 71 (set_pc (pc s + 3) (set_reg regs' (set_ir 130 s))))));
    fields; try assumption; try reflexivity.
  - change (Z.land (Z.shiftr 71 4) 1 =? 0) with true.
    change (Z.shiftr 71 6 + 1) with 2. unfold set_pc, set_stdout. fields.
    do 2 f_equal. lia.
  - apply (PRN_run (set_ir 71 (set_pc (pc s + 3) (set_reg regs' (set_ir 130 s)))) r v);
      fields; [|exact Hget].
    replace (pc s + 3 + 1) with (pc s + 4) by lia. exact Hr2.
Qed.

Lemma LDI_then_PRN_witness :
  exists regs',
    PyList.get regs' 0 = Some 7 /\
    two_cycles (boot print_program)
      = (Ok tt, mkCPU (ram (boot print_program)) (pc (boot print_program) + 5) 71 regs'
                  (working (boot print_program)) (fl (boot print_program))
                  (stdout (boot print_program) ++ [PrintInt 7])).
Proof.
  destruct (LDI_then_PRN (boot print_program) 0 7) as (regs' & _ & Hget & Hrun);
    try reflexivity; [eexists; reflexivity|].
  exists regs'. split; assumption.
Defined.

Lemma cycle_CMP s a b x y :
  PyList.get (ram s) (pc s) = Some 167 ->
  PyList.get (ram s) (pc s + 1) = Some a ->
  PyList.get (ram s) (pc s + 2) = Some b ->
  PyList.get (reg s) a = Some x ->
  PyList.get (reg s) b = Some y ->
  cycle s
    = (Ok tt, set_pc (pc s + 3)
                (set_fl (if x >? y then 2 else if x <? y then 4 else 1) (set_ir 167 s))).
Proof.
  intros Hop Ha Hb Hx Hy.
  rewrite (cycle_run s 167 CMP _ Hop eq_refl (CMP_run (set_ir 167 s) a b x y Ha Hb Hx Hy)).
  reflexivity.
Qed.

Lemma cycle_JEQ s r t :
  PyList.get (ram s) (pc s) = Some 85 ->
  PyList.get (ram s) (pc s + 1) = Some r ->
  PyList.get (reg s) r = Some t ->
  cycle s
    = (Ok tt, set_pc (if Z.shiftr (fl s) 1 =? 0 then t else pc s + 2) (set_ir 85 s)).
Proof.
  intros Hop Hr Ht.
  rewrite (cycle_run s 85 JEQ
             (set_pc (if Z.shiftr (fl s) 1 =? 0 then t else pc s + 2) (set_ir 85 s)) Hop eq_refl);
    [reflexivity|].
  rewrite JEQ_run. fields.
  destruct (Z.shiftr (fl s) 1 =? 0); [|reflexivity].
  apply (JMP_run (set_ir 85 s) r t); assumption.
Qed.

Lemma cycle_JNE s r t :
  PyList.get (ram s) (pc s) = Some 86 ->
  PyList.get (ram s) (pc s + 1) = Some r ->
  PyList.get (reg s) r = Some t ->
  cycle s
    = (Ok tt, set_pc (if Z.shiftr (fl s) 1 =? 0 then pc s + 2 else t) (set_ir 86 s)).
Proof.
  intros Hop Hr Ht.
  rewrite (cycle_run s 86 JNE
             (set_pc (if Z.shiftr (fl s) 1 =? 0 then pc s + 2 else t) (set_ir 86 s)) Hop eq_refl);
    [reflexivity|].
  rewrite JNE_run. fields.
  destruct (Z.shiftr (fl s) 1 =? 0); [reflexivity|].
  apply (JMP_run (set_ir 86 s) r t); assumption.
Qed.

(** X14: CMP followed by a conditional jump branches on equality of the two
    registers compared: JEQ continues at Register[operand] when they are
    equal and at the next instruction otherwise, JNE the other way round;
    the registers are untouched and the flags record the comparison. *)
Theorem CMP_then_branch s a b r x y t :
  PyList.get (ram s) (pc s) = Some 167 ->
  PyList.get (ram s) (pc s + 1) = Some a ->
  PyList.get (ram s) (pc s + 2) = Some b ->
  PyList.get (ram s) (pc s + 4) = Some r ->
  PyList.get (reg s) a = Some x ->
  PyList.get (reg s) b = Some y ->
  PyList.get (reg s) r = Some t ->
  (PyList.get (ram s) (pc s + 3) = Some 85 ->
     two_cycles s
       = (Ok tt, mkCPU (ram s) (if x =? y then t else pc s + 5) 85 (reg s) (working s)
                   (if x >? y then 2 else if x <? y then 4 else 1) (stdout s))) /\
  (PyList.get (ram s) (pc s + 3) = Some 86 ->
     two_cycles s
       = (Ok tt, mkCPU (ram s) (if x =? y then pc s + 5 else t) 86 (reg s) (working s)
                   (if x >? y then 2 else if x <? y then 4 else 1) (stdout s))).
Proof.
  intros Hop1 Ha Hb Hr Hx Hy Ht.
  pose proof (cycle_CMP s a b x y Hop1 Ha Hb Hx Hy) as Hfirst.
  assert (Hr' : PyList.get (ram s) (pc s + 3 + 1) = Some r)
    by (replace (pc s + 3 + 1) with (pc s + 4) by lia; exact Hr).
  split; intros Hop2; unfold two_cycles, bind; rewrite Hfirst.
  - rewrite (cycle_JEQ _ r t) by (fields; assumption). fields.
    destruct (Z.gtb_spec x y), (Z.ltb_spec x y), (Z.eqb_spec x y); try lia;
      unfold set_pc, set_fl, set_ir; fields;
      [ change (Z.shiftr 2 1 =? 0) with false
      | change (Z.shiftr 4 1 =? 0) with false
      | change (Z.shiftr 1 1 =? 0) with true ];
      cbv iota; do 2 f_equal; lia.
  - rewrite (cycle_JNE _ r t) by (fields; assumption). fields.
    destruct (Z.gtb_spec x y), (Z.ltb_spec x y), (Z.eqb_spec x y); try lia;
      unfold set_pc, set_fl, set_ir; fields;
      [ change (Z.shiftr 2 1 =? 0) with false
      | change (Z.shiftr 4 1 =? 0) with false
      | change (Z.shiftr 1 1 =? 0) with true ];
      cbv iota; do 2 f_equal; lia.
Qed.

Lemma CMP_then_branch_witness :
  two_cycles (boot_with [167; 0; 1; 85; 0] 4 4)
    = (Ok tt, mkCPU (ram (boot_with [167; 0; 1; 85; 0] 4 4))
                (if 4 =? 4 then 4 else pc (boot_with [167; 0; 1; 85; 0] 4 4) + 5) 85
                (reg (boot_with [167; 0; 1; 85; 0] 4 4))
                (working (boot_with [167; 0; 1; 85; 0] 4 4))
                (if 4 >? 4 then 2 else if 4 <? 4 then 4 else 1)
                (stdout (boot_with [167; 0; 1; 85; 0] 4 4))).
Proof.
  apply (proj1 (CMP_then_branch (boot_with [167; 0; 1; 85; 0] 4 4) 0 1 0 4 4 4
                  eq_refl eq_refl eq_refl eq_refl eq_refl eq_refl eq_refl)).
  reflexivity.
Defined.

(** ** A loop that never ends *)

Lemma cycle_JMP s r t :
  PyList.get (ram s) (pc s) = Some 84 ->
  PyList.get (ram s) (pc s + 1) = Some r ->
  PyList.get (reg s) r = Some t ->
  cycle s = (Ok tt, set_pc t (set_ir 84 s)).
Proof.
  intros Hop Hr Ht.
  rewrite (cycle_run s 84 JMP (set_pc t (set_ir 84 s)) Hop eq_refl); [reflexivity|].
  apply (JMP_run (set_ir 84 s) r t); assumption.
Qed.

(** X15: the loop has no limit of its own: when the instruction at pc is a
    JMP whose register holds that same pc, no number of passes ends the
    run. *)
Theorem JMP_to_itself_never_returns s r fuel :
  PyList.get (ram s) (pc s) = Some 84 ->
  PyList.get (ram s) (pc s + 1) = Some r ->
  PyList.get (reg s) r = Some (pc s) ->
  run fuel s = None.
Proof.
  intros Hop Hr Ht. unfold run.
  assert (Hloop : forall s', working s' = true -> ram s' = ram s -> reg s' = reg s ->
                    pc s' = pc s -> while_working fuel s' = None).
  { induction fuel as [|fuel IH]; intros s' Hon Hram Hreg Hpc; cbn [while_working];
      rewrite Hon; [reflexivity|].
    rewrite (cycle_JMP s' r (pc s)) by (rewrite ?Hram, ?Hreg, ?Hpc; assumption).
    apply IH; fields; auto. }
  apply Hloop; reflexivity.
Qed.

Lemma JMP_to_itself_never_returns_witness :
  run 1000 (boot [84; 0]) = None.
Proof.
  apply (JMP_to_itself_never_returns (boot [84; 0]) 0 1000); reflexivity.
Defined.

(** ** Moving a value through the stack *)

Lemma get_same_index (l : list Z) i j :
  PyList.index (length l) i = PyList.index (length l) j ->
  PyList.get l i = PyList.get l j.
Proof. intros H. unfold PyList.get. rewrite H. reflexivity. Qed.

(** X16: PUSH of register [a] followed by POP into another register [b]
    (not the stack pointer) copies the pushed value into [b], puts the stack
    pointer back where it was and leaves every other register as it was
    before the PUSH; the pushed value is what [a] held, unless [a] is the
    stack pointer itself. *)
Theorem PUSH_then_POP_moves s s1 a b s2 :
  PUSH s = (Ok tt, s1) ->
  PyList.get (ram s) (pc s + 1) = Some a ->
  reg s2 = reg s1 ->
  ram s2 = ram s1 ->
  PyList.get (ram s2) (pc s2 + 1) = Some b ->
  is_Some (PyList.get (reg s) b) ->
  PyList.index (length (reg s)) b <> PyList.index (length (reg s)) sp ->
  exists data v s3,
    PyList.get (reg s1) a = Some data /\
    PyList.get (reg s) sp = Some v /\
    POP s2 = (Ok tt, s3) /\
    PyList.get (reg s3) b = Some data /\
    PyList.get (reg s3) sp = Some v /\
    (forall c,
       PyList.index (length (reg s)) c <> PyList.index (length (reg s)) b ->
       PyList.get (reg s3) c = PyList.get (reg s) c) /\
    (PyList.index (length (reg s)) a <> PyList.index (length (reg s)) sp ->
       PyList.get (reg s) a = Some data).
Proof.
  intros (v & regs1 & a' & data & ram1 & Hv & Hregs1 & Ha' & Hdata & Hram1 & ->)%PUSH_inv
    Ha Hreg2 Hram2 Hb Hbreg Hbsp.
  fields. rewrite Ha in Ha'. injection Ha' as <-.
  pose proof (set_length _ _ _ _ Hregs1) as Hlen1.
  destruct (get_is_Some_length (reg s) regs1 b (eq_sym Hlen1) Hbreg) as [old Hold].
  destruct (get_is_Some_set _ _ _ data Hold) as [regs2 Hregs2].
  pose proof (set_length _ _ _ _ Hregs2) as Hlen2.
  assert (Hsp2 : PyList.get regs2 sp = Some (v - 1)).
  { rewrite (get_set_ne _ _ _ _ _ Hregs2) by (rewrite Hlen1; congruence).
    eapply get_set_eq, Hregs1. }
  destruct (get_is_Some_set _ _ _ (v - 1 + 1) Hsp2) as [regs3 Hregs3].
  replace (v - 1 + 1) with v in Hregs3 by lia.
  exists data, v, (set_reg regs3 s2). fields.
  split; [exact Hdata|]. split; [exact Hv|]. split; [|split; [|split; [|split]]].
  - apply (POP_run s2 b (v - 1) data regs2 (v - 1)); try assumption.
    + rewrite Hreg2. eapply get_set_eq, Hregs1.
    + rewrite Hram2. eapply get_set_eq, Hram1.
    + rewrite Hreg2. exact Hregs2.
    + replace (v - 1 + 1) with v by lia. exact Hregs3.
  - rewrite (get_set_ne _ _ _ _ _ Hregs3) by (rewrite Hlen2, Hlen1; congruence).
    eapply get_set_eq, Hregs2.
  - eapply get_set_eq, Hregs3.
  - intros c Hc.
    destruct (decide (PyList.index (length (reg s)) c = PyList.index (length (reg s)) sp))
      as [Hcsp|Hcsp].
    + rewrite (get_set_same_index _ _ _ _ _ Hregs3) by (rewrite Hlen2, Hlen1; exact Hcsp).
      rewrite (get_same_index _ _ _ Hcsp). symmetry. exact Hv.
    + rewrite (get_set_ne _ _ _ _ _ Hregs3) by (rewrite Hlen2, Hlen1; exact Hcsp).
      rewrite (get_set_ne _ _ _ _ _ Hregs2) by (rewrite Hlen1; exact Hc).
      eapply get_set_ne; eassumption.
  - intros Hasp. rewrite <- Hdata. symmetry. eapply get_set_ne; eassumption.
Qed.

Lemma PUSH_then_POP_moves_witness :
  exists s3,
    POP (set_pc 2 (snd (PUSH (boot_with [69; 0; 70; 1] 42 0)))) = (Ok tt, s3) /\
    PyList.get (reg s3) 1 = Some 42 /\
    PyList.get (reg s3) sp = Some 244.
Proof.
  destruct (PUSH_then_POP_moves (boot_with [69; 0; 70; 1] 42 0)
              (snd (PUSH (boot_with [69; 0; 70; 1] 42 0))) 0 1
              (set_pc 2 (snd (PUSH (boot_with [69; 0; 70; 1] 42 0)))))
    as (data & v & s3 & Hdata & Hv & Hpop & Hb & Hsp & _);
    try reflexivity; [eexists; reflexivity | vm_compute; discriminate |].
  exists s3. split; [exact Hpop|].
  split; [rewrite Hb, <- Hdata | rewrite Hsp, <- Hv]; reflexivity.
Defined.

(** ** Loading twice *)

(** X17: loading a program over one loaded before, when the new one fits
    and is at least as long, leaves the state the new program alone would
    have given: nothing of the earlier program survives. *)
Theorem load_over_shorter p1 p2 s :
  (length p1 <= length p2)%nat ->
  (length p2 <= length (ram s))%nat ->
  load p2 (snd (load p1 s)) = load p2 s.
Proof.
  intros H12 Hfit.
  rewrite (load_copies p1 s) by lia. cbn [snd].
  assert (Hlen : length (p1 ++ drop (length p1) (ram s)) = length (ram s))
    by (rewrite length_app, length_drop; lia).
  rewrite (load_copies p2 (set_ram _ s)) by (fields; lia).
  rewrite (load_copies p2 s) by lia.
  unfold set_ram. fields. do 3 f_equal.
  rewrite drop_app_ge, drop_drop by lia. f_equal. lia.
Qed.

Lemma load_over_shorter_witness :
  load mult_program (snd (load print_program init)) = load mult_program init.
Proof.
  apply (load_over_shorter print_program mult_program init); vm_compute; lia.
Defined.

(** ** A call through the loop *)

(** X18: when a pass of the loop executes CALL and the cell it jumps to
    holds RET, the next pass brings pc to the instruction after the CALL
    with the register file exactly as before the CALL: the loop adds nothing
    to pc after either instruction.  The only trace left is the return
    address in the stack cell and the opcode in [ir]. *)
Theorem CALL_then_RET_through_loop s s1 :
  PyList.get (ram s) (pc s) = Some 80 ->
  CALL (set_ir 80 s) = (Ok tt, s1) ->
  PyList.get (ram s1) (pc s1) = Some 17 ->
  two_cycles s = (Ok tt, set_pc (pc s + 2) (set_reg (reg s) (set_ir 17 s1))).
Proof.
  intros Hop Hcall Hret. unfold two_cycles, bind.
  rewrite (cycle_run s 80 CALL s1 Hop eq_refl Hcall).
  change (Z.land (Z.shiftr 80 4) 1 =? 0) with false. cbv iota.
  apply CALL_inv in Hcall as (v & regs1 & ram1 & r & t & Hv & Hregs & Hram & Hr & Ht & ->).
  rewrite (cycle_run
             (set_pc t (set_ram ram1 (set_reg regs1 (set_pc (pc (set_ir 80 s) + 1)
                                                     (set_ir 80 s)))))
             17 RET
             (set_pc (pc s + 2)
                (set_reg (reg s)
                   (set_ir 17 (set_pc t (set_ram ram1 (set_reg regs1
                      (set_pc (pc (set_ir 80 s) + 1) (set_ir 80 s))))))))
             Hret eq_refl).
  - reflexivity.
  - apply (RET_run _ (v - 1)); fields.
    + eapply get_set_eq, Hregs.
    + eapply get_set_eq, Hram.
    + rewrite (set_set _ _ _ _ _ Hregs). replace (v - 1 + 1) with v by lia.
      apply set_get_id, Hv.
Qed.

Lemma CALL_then_RET_through_loop_witness :
  two_cycles (boot_with [80; 0; 1; 17] 3 0)
    = (Ok tt, set_pc (pc (boot_with [80; 0; 1; 17] 3 0) + 2)
                (set_reg (reg (boot_with [80; 0; 1; 17] 3 0))
                   (set_ir 17 (snd (CALL (set_ir 80 (boot_with [80; 0; 1; 17] 3 0))))))).
Proof.
  apply (CALL_then_RET_through_loop (boot_with [80; 0; 1; 17] 3 0)
           (snd (CALL (set_ir 80 (boot_with [80; 0; 1; 17] 3 0)))));
    vm_compute; reflexivity.
Defined.
